(** * The settings layer of the client SDK: [bosdyn/client/sdk.py]

    A shallow embedding of [sdk.py] and the properties of its credential
    loading, certificate loading, service registry and robot cache.

    Python objects that are mutated in place are threaded as explicit state;
    a raised exception keeps the state reached so far, as in Python. *)

From Stdlib Require Import ZArith Lia.
From stdpp Require Import gmap strings list sorting.

Local Open Scope Z_scope.

(** ** Python values used by the module *)

Abbreviation bytes := (list Byte.byte).

(** A value that is either [None] or a [str]. *)
Abbreviation pystr := (option string).

(** Truth value of a [None]-or-[str] object: [None] and the empty string are
    false. *)
Definition truthy (v : pystr) : bool :=
  match v with
  | Some (String _ _) => true
  | _ => false
  end.

(** [x or y] where [y] is a string: [x] when it is true, [y] otherwise. *)
Definition py_or (x : pystr) (y : string) : string :=
  match x with
  | Some (String c s) => String c s
  | _ => y
  end.

(** The double quote character, as a string. *)
Definition dq : string := String (Ascii.ascii_of_nat 34) EmptyString.

(** ** Exceptions *)

Inductive exn : Type :=
  | UnsetAppTokenError                      (* class UnsetAppTokenError(SdkError) *)
  | UnableToLoadAppTokenError (msg : string)(* class UnableToLoadAppTokenError(SdkError) *)
  | IOError (msg : string)                  (* raise IOError(msg) *)
  | OSError (errno : Z) (filename : string) (* failure of open() or read() *)
  | AttributeError (attr : string)          (* lookup of an attribute that is not there *)
  | TypeError
  | ValueError
  | OverflowError
  | UnicodeDecodeError.

(** The class a handler matches on.  [open] raises [IOError] in Python 2 and
    [OSError], of which [IOError] is an alias, in Python 3. *)
Inductive exn_class : Type :=
  | ClsUnsetAppTokenError
  | ClsUnableToLoadAppTokenError
  | ClsIOError
  | ClsAttributeError
  | ClsTypeError
  | ClsValueError
  | ClsOverflowError.

Definition class_of (e : exn) : exn_class :=
  match e with
  | UnsetAppTokenError => ClsUnsetAppTokenError
  | UnableToLoadAppTokenError _ => ClsUnableToLoadAppTokenError
  | IOError _ => ClsIOError
  | OSError _ _ => ClsIOError
  | AttributeError _ => ClsAttributeError
  | TypeError => ClsTypeError
  | ValueError => ClsValueError
  | OverflowError => ClsOverflowError
  | UnicodeDecodeError => ClsValueError
  end.

Definition is_IOError (e : exn) : bool :=
  match class_of e with ClsIOError => true | _ => false end.

Definition is_TypeError (e : exn) : bool :=
  match class_of e with ClsTypeError => true | _ => false end.

(** ** Computations that mutate a state and may raise *)

Inductive outcome (A : Type) : Type :=
  | Ok (a : A)
  | Raise (e : exn).
Arguments Ok {A} a.
Arguments Raise {A} e.

Definition M (S A : Type) : Type := S -> outcome A * S.

Definition ret {S A} (a : A) : M S A := fun s => (Ok a, s).

Definition bind {S A B} (m : M S A) (k : A -> M S B) : M S B :=
  fun s =>
    match m s with
    | (Ok a, s') => k a s'
    | (Raise e, s') => (Raise e, s')
    end.

Definition raise {S A} (e : exn) : M S A := fun s => (Raise e, s).

Definition modify {S} (f : S -> S) : M S unit := fun s => (Ok tt, f s).

(** A pure step that may raise. *)
Definition lift {S A} (o : outcome A) : M S A := fun s => (o, s).

(** Runs [m] on the part [g s] of the state and writes the part back. *)
Definition zoom {S T A} (g : S -> T) (p : T -> S -> S) (m : M T A) : M S A :=
  fun s => let '(r, t) := m (g s) in (r, p t s).

(** [try: m except h]: [h e] is [Some k] when a handler matches [e]. *)
Definition try_except {S A} (m : M S A) (h : exn -> option (M S A)) : M S A :=
  fun s =>
    match m s with
    | (Ok a, s') => (Ok a, s')
    | (Raise e, s') =>
        match h e with
        | Some k => k s'
        | None => (Raise e, s')
        end
    end.

(** [for x in l: body x] *)
Fixpoint for_each {S A} (l : list A) (body : A -> M S unit) : M S unit :=
  match l with
  | [] => ret tt
  | x :: l' => bind (body x) (fun _ => for_each l' body)
  end.

Declare Scope py_scope.
Delimit Scope py_scope with py.
Notation "'let*' x ':=' m 'in' k" := (bind m (fun x => k))
  (at level 10, x name, m at level 100, k at level 200) : py_scope.
Notation "m '>>' k" := (bind m (fun _ => k))
  (at level 110, right associativity) : py_scope.
Local Open Scope py_scope.

(** ** Service client classes *)

(** A class attribute: [None] when the class does not define it, otherwise
    its value, which is [None] or a string. *)
Abbreviation attribute := (option pystr).

(** A callable that returns a client, typically a client class.  The
    registry only reads the two class attributes below. *)
Record Factory : Type := {
  factory_name : string;
  default_service_name : attribute;
  service_type : attribute
}.

Definition getattr (name : string) (a : attribute) : outcome pystr :=
  match a with
  | Some v => Ok v
  | None => Raise (AttributeError name)
  end.

(** [x or obj.name]: the attribute is only looked up when [x] is false. *)
Definition or_getattr (x : pystr) (name : string) (a : attribute) : outcome pystr :=
  if truthy x then Ok x else getattr name a.

(** ** Request processors *)

Inductive Processor : Type :=
  | AddRequestHeader (client_name : string).

(** ** The [Sdk] object *)

Record Sdk : Type := {
  app_token : pystr;
  cert : option bytes;
  logger : string;
  request_processors : list Processor;
  response_processors : list Processor;
  service_client_factories_by_type : gmap pystr Factory;
  service_type_by_name : gmap pystr pystr;
  (* Robots created by this Sdk, keyed by address; the values are
     references into the store of [Robot] objects. *)
  robots : gmap string nat
}.

(** [Sdk.__init__] *)
Definition Sdk_init (name : pystr) : Sdk := {|
  app_token := None;
  cert := None;
  logger := py_or name "bosdyn.Sdk";
  request_processors := [];
  response_processors := [];
  service_client_factories_by_type := ∅;
  service_type_by_name := ∅;
  robots := ∅
|}.

Definition set_app_token (v : pystr) (s : Sdk) : Sdk :=
  {| app_token := v; cert := cert s; logger := logger s;
     request_processors := request_processors s;
     response_processors := response_processors s;
     service_client_factories_by_type := service_client_factories_by_type s;
     service_type_by_name := service_type_by_name s;
     robots := robots s |}.

Definition set_cert (v : option bytes) (s : Sdk) : Sdk :=
  {| app_token := app_token s; cert := v; logger := logger s;
     request_processors := request_processors s;
     response_processors := response_processors s;
     service_client_factories_by_type := service_client_factories_by_type s;
     service_type_by_name := service_type_by_name s;
     robots := robots s |}.

Definition set_request_processors (v : list Processor) (s : Sdk) : Sdk :=
  {| app_token := app_token s; cert := cert s; logger := logger s;
     request_processors := v;
     response_processors := response_processors s;
     service_client_factories_by_type := service_client_factories_by_type s;
     service_type_by_name := service_type_by_name s;
     robots := robots s |}.

Definition set_registry (by_name : gmap pystr pystr) (by_type : gmap pystr Factory)
    (s : Sdk) : Sdk :=
  {| app_token := app_token s; cert := cert s; logger := logger s;
     request_processors := request_processors s;
     response_processors := response_processors s;
     service_client_factories_by_type := by_type;
     service_type_by_name := by_name;
     robots := robots s |}.

Definition set_robots (v : gmap string nat) (s : Sdk) : Sdk :=
  {| app_token := app_token s; cert := cert s; logger := logger s;
     request_processors := request_processors s;
     response_processors := response_processors s;
     service_client_factories_by_type := service_client_factories_by_type s;
     service_type_by_name := service_type_by_name s;
     robots := v |}.

(** ** The [Robot] object *)

(** Modelled from the spec: the class [Robot] of [robot.py], of which
    [sdk.py] uses the constructor, the attribute [address] and the method
    [update_from].  A robot has a display name, an address and a copy of the
    registry, the credential, the certificate and the processors of the
    [Sdk] it was created from. *)
Record Robot : Type := {
  robot_name : string;
  robot_address : pystr;
  robot_app_token : pystr;
  robot_cert : option bytes;
  robot_request_processors : list Processor;
  robot_response_processors : list Processor;
  robot_factories_by_type : gmap pystr Factory;
  robot_type_by_name : gmap pystr pystr
}.

(** Modelled from the spec: [Robot(name=...)], a robot with nothing set but
    its name. *)
Definition Robot_init (name : string) : Robot := {|
  robot_name := name;
  robot_address := None;
  robot_app_token := None;
  robot_cert := None;
  robot_request_processors := [];
  robot_response_processors := [];
  robot_factories_by_type := ∅;
  robot_type_by_name := ∅
|}.

(** [robot.address = address] *)
Definition set_robot_address (a : string) (r : Robot) : Robot := {|
  robot_name := robot_name r;
  robot_address := Some a;
  robot_app_token := robot_app_token r;
  robot_cert := robot_cert r;
  robot_request_processors := robot_request_processors r;
  robot_response_processors := robot_response_processors r;
  robot_factories_by_type := robot_factories_by_type r;
  robot_type_by_name := robot_type_by_name r
|}.

(** Modelled from the spec: [Robot.update_from], which copies the current
    registry, credential, certificate and processors of the [Sdk] into the
    robot. *)
Definition update_from (s : Sdk) (r : Robot) : Robot := {|
  robot_name := robot_name r;
  robot_address := robot_address r;
  robot_app_token := app_token s;
  robot_cert := cert s;
  robot_request_processors := request_processors s;
  robot_response_processors := response_processors s;
  robot_factories_by_type := service_client_factories_by_type s;
  robot_type_by_name := service_type_by_name s
|}.

(** ** Module state *)

Inductive level : Type := DEBUG | INFO | WARNING | ERROR.

(** A calendar date, the arguments of [strftime(..., '%Y/%m/%d')]. *)
Record date : Type := { year : Z; month : Z; day : Z }.

(** The messages the module logs: one constructor per format string, with
    the arguments that are formatted into it. *)
Inductive message : Type :=
  | CreatingStandardSdk (cert_glob : pystr)
  | CouldNotGetUsername
  | TokenHasExpired
  | TokenExpiresInDays (days : Z) (on : date)
  | TokenExpiresOn (on : date)
  | ExceptionRaised (e : exn).

(** What lives outside an [Sdk] object and is mutated by the module: the
    records handed to [_LOGGER], the list [_DEFAULT_SERVICE_CLIENTS] and the
    [Robot] objects allocated so far (a reference is an index). *)
Record World : Type := {
  logged : list (level * message);
  _DEFAULT_SERVICE_CLIENTS : list Factory;
  robot_objects : list Robot
}.

Definition add_log (r : level * message) (w : World) : World :=
  {| logged := logged w ++ [r];
     _DEFAULT_SERVICE_CLIENTS := _DEFAULT_SERVICE_CLIENTS w;
     robot_objects := robot_objects w |}.

Definition set_default_service_clients (l : list Factory) (w : World) : World :=
  {| logged := logged w;
     _DEFAULT_SERVICE_CLIENTS := l;
     robot_objects := robot_objects w |}.

Definition add_robot_object (r : Robot) (w : World) : World :=
  {| logged := logged w;
     _DEFAULT_SERVICE_CLIENTS := _DEFAULT_SERVICE_CLIENTS w;
     robot_objects := robot_objects w ++ [r] |}.

(** The state of a method call: the [Sdk] it runs on and the world. *)
Abbreviation MethodState := (Sdk * World)%type.

Definition self : M MethodState Sdk := fun s => (Ok (fst s), s).
Definition update_self (f : Sdk -> Sdk) : M MethodState unit :=
  modify (fun s => (f (fst s), snd s)).
Definition world : M MethodState World := fun s => (Ok (snd s), s).
Definition update_world (f : World -> World) : M MethodState unit :=
  modify (fun s => (fst s, f (snd s))).
(** A module-level function called from a method. *)
Definition in_world {A} (m : M World A) : M MethodState A :=
  zoom snd (fun w s => (fst s, w)) m.
(** A block that works on a local [Sdk] object. *)
Definition with_local {A} (sdk : Sdk) (m : M MethodState A) : M World A :=
  fun w => let '(r, s) := m (sdk, w) in (r, snd s).

(** A call of a method of [_LOGGER]. *)
Definition log (l : level) (m : message) : M World unit :=
  modify (add_log (l, m)).

(** ** [Sdk.create_robot] *)

Definition create_robot (address : string) (name : pystr) : M MethodState nat :=
  let* sdk := self in
  match app_token sdk with
  | None => raise UnsetAppTokenError
  | Some _ =>
      match robots sdk !! address with
      | Some robot => ret robot
      | None =>
          let* w := world in
          let robot := length (robot_objects w) in
          let obj := Robot_init (py_or name address) in
          let obj := set_robot_address address obj in
          let obj := update_from sdk obj in
          update_world (add_robot_object obj) >>
          update_self (fun s => set_robots (<[address := robot]> (robots s)) s) >>
          ret robot
      end
  end.

(** ** [Sdk.register_service_client] *)

Definition register_service_client (creation_func : Factory)
    (service_type_arg service_name_arg : pystr) : M MethodState unit :=
  let* service_name :=
    lift (or_getattr service_name_arg "default_service_name"
            (default_service_name creation_func)) in
  let* service_type :=
    lift (or_getattr service_type_arg "service_type" (service_type creation_func)) in
  update_self (fun s =>
    set_registry (<[service_name := service_type]> (service_type_by_name s))
                 (service_client_factories_by_type s) s) >>
  update_self (fun s =>
    set_registry (service_type_by_name s)
                 (<[service_type := creation_func]> (service_client_factories_by_type s)) s).

(** ** What the module reads from its environment *)

Inductive read_result : Type :=
  | ReadOk (data : bytes)
  | ReadFail (errno : Z).

(** A value of a decoded claim: an integer, or something that is not a
    number (a string, a list, an object, null).  Fractional numbers are not
    modelled. *)
Inductive claim_value : Type :=
  | Int (z : Z)
  | NotANumber (repr : string).

(** The result of [jwt.decode(token, verify=False)]: the payload, a
    [jwt.exceptions.DecodeError] or another exception, the last two with
    their text. *)
Inductive jwt_result : Type :=
  | JwtPayload (values : gmap string claim_value)
  | JwtDecodeError (text : string)
  | JwtOtherException (text : string).

Record Env : Type := {
  (* glob.glob(pattern), in the order the call returns the paths *)
  glob_glob : string -> list string;
  os_path_isfile : string -> bool;
  os_path_expanduser : string -> string;
  (* open(path, 'rb') followed by read() *)
  open_read : string -> read_result;
  (* pkg_resources.resource_stream('bosdyn.client.resources', 'robot.pem').read() *)
  resource_robot_pem : bytes;
  (* bytes.decode(): None stands for UnicodeDecodeError *)
  bytes_decode : bytes -> option string;
  str_strip : string -> string;
  jwt_decode : string -> jwt_result;
  (* datetime.datetime.utcnow(), in microseconds since the epoch *)
  utcnow : Z;
  (* offset of local time from UTC, in seconds, at a POSIX timestamp *)
  utcoffset : Z -> Z;
  (* os.path.basename(__main__.__file__), None when __main__ has no __file__ *)
  main_file_basename : option string;
  (* os.getpid(), formatted *)
  os_getpid : string;
  platform_node : string;
  (* getpass.getuser(), None when it raises *)
  getpass_getuser : option string
}.

Definition open_rb (env : Env) (path : string) : outcome bytes :=
  match open_read env path with
  | ReadOk data => Ok data
  | ReadFail errno => Raise (OSError errno path)
  end.

(** ** [generate_client_name] *)

Definition generate_client_name (env : Env) (prefix : string) : M World string :=
  let process_info :=
    match main_file_basename env with
    | Some f => f +:+ "-" +:+ os_getpid env
    | None => os_getpid env
    end in
  let machine_name := platform_node env in
  let* user_name :=
    (if truthy (Some machine_name) then ret None
     else match getpass_getuser env with
          | Some u => ret (Some u)
          | None => log WARNING CouldNotGetUsername >> ret (Some "<unknown host>")
          end) in
  (* machine_name or user_name: user_name is only read when machine_name is empty *)
  ret (prefix +:+ py_or (Some machine_name) (default EmptyString user_name)
         +:+ ":" +:+ process_info).

(** ** [Sdk.load_robot_cert] *)

Definition cert_paths (env : Env) (resource_path_glob : string) : list string :=
  List.filter (os_path_isfile env) (glob_glob env resource_path_glob).

(** [self.cert += data] *)
Definition cert_iadd (data : bytes) : M MethodState unit :=
  let* sdk := self in
  match cert sdk with
  | Some b => update_self (set_cert (Some (b ++ data)))
  | None => raise TypeError
  end.

Definition load_robot_cert (env : Env) (resource_path_glob : pystr) : M MethodState unit :=
  update_self (set_cert None) >>
  match resource_path_glob with
  | None => update_self (set_cert (Some (resource_robot_pem env)))
  | Some pattern =>
      match cert_paths env pattern with
      | [] => raise (IOError ("No files matched " +:+ dq +:+ pattern +:+ dq))
      | paths =>
          update_self (set_cert (Some [])) >>
          for_each paths (fun cert_path =>
            let* data := lift (open_rb env cert_path) in
            cert_iadd data)
      end
  end.

(** ** [decode_token] *)

Definition decode_token (env : Env) (token : string) : outcome (gmap string claim_value) :=
  match jwt_decode env token with
  | JwtPayload values => Ok values
  | JwtDecodeError e =>
      Raise (UnableToLoadAppTokenError
               ("Incorrectly formatted token " +:+ token +:+ " --- " +:+ e))
  | JwtOtherException e =>
      Raise (UnableToLoadAppTokenError
               ("Problem decoding token " +:+ token +:+ " --- " +:+ e))
  end.

(** ** Dates and durations *)

(** A [datetime] without time zone is the number of microseconds between
    1970-01-01 00:00:00 and the wall-clock time it shows; a [timedelta] is a
    number of microseconds. *)
Definition us_per_second : Z := 1000000.
Definition seconds_per_day : Z := 86400.
Definition us_per_day : Z := seconds_per_day * us_per_second.

Definition timedelta_seconds (n : Z) : Z := n * us_per_second.
Definition timedelta_days (n : Z) : Z := n * us_per_day.
(** [timedelta.days] *)
Definition days_of (td : Z) : Z := td / us_per_day.

(** The calendar date of the day that is [z] days after 1970-01-01. *)
Definition civil_from_days (z : Z) : date :=
  let z := z + 719468 in
  let era := z / 146097 in
  let doe := z - era * 146097 in
  let yoe := (doe - doe / 1460 + doe / 36524 - doe / 146096) / 365 in
  let doy := doe - (365 * yoe + yoe / 4 - yoe / 100) in
  let mp := (5 * doy + 2) / 153 in
  let d := doy - (153 * mp + 2) / 5 + 1 in
  let m := if mp <? 10 then mp + 3 else mp - 9 in
  let y := yoe + era * 400 + (if m <=? 2 then 1 else 0) in
  {| year := y; month := m; day := d |}.

(** The date that [strftime(dt, '%Y/%m/%d')] prints. *)
Definition strftime_date (dt : Z) : date := civil_from_days (dt / us_per_day).

Definition MINYEAR : Z := 1.
Definition MAXYEAR : Z := 9999.

(** [datetime.datetime.fromtimestamp(v)]: the local time at the POSIX
    timestamp [v].  A value that is not a number is a [TypeError].  A
    timestamp that [datetime] cannot represent raises as well, and which
    exception it is depends on the platform; here it is an [OverflowError]
    outside a 64-bit [time_t] and a [ValueError] for a year outside
    [MINYEAR..MAXYEAR]. *)
Definition fromtimestamp (env : Env) (v : claim_value) : outcome Z :=
  match v with
  | NotANumber _ => Raise TypeError
  | Int t =>
      if (t <? - 2 ^ 63) || (2 ^ 63 <=? t) then Raise OverflowError
      else
        let local := t + utcoffset env t in
        let y := year (civil_from_days (local / seconds_per_day)) in
        if (MINYEAR <=? y) && (y <=? MAXYEAR) then Ok (local * us_per_second)
        else Raise ValueError
  end.

(** ** [log_token_time_remaining] *)

Definition log_token_time_remaining (env : Env) (token : string) : M World unit :=
  let* token_values := lift (decode_token env token) in
  match token_values !! "exp" with
  | None => raise (UnableToLoadAppTokenError "Unknown token expiration")
  | Some exp =>
      let* expire_time := lift (fromtimestamp env exp) in
      let time_to_expiration := expire_time - utcnow env in
      if time_to_expiration <? timedelta_seconds 0 then
        log ERROR TokenHasExpired
      else if time_to_expiration <=? timedelta_days 30 then
        log WARNING
          (TokenExpiresInDays (days_of time_to_expiration) (strftime_date expire_time))
      else
        log INFO (TokenExpiresOn (strftime_date expire_time))
  end.

(** ** [Sdk.load_app_token] *)

Definition load_app_token (env : Env) (resource_path : pystr) : M MethodState unit :=
  match resource_path with
  | Some (String c p) =>
      let path := String c p in
      let* token :=
        try_except
          (let* raw := lift (open_rb env (os_path_expanduser env path)) in
           match bytes_decode env raw with
           | None => raise UnicodeDecodeError
           | Some text =>
               let token := str_strip env text in
               in_world (log_token_time_remaining env token) >>
               ret token
           end)
          (fun e =>
             if is_IOError e then
               Some (in_world (log ERROR (ExceptionRaised e)) >>
                     raise (UnableToLoadAppTokenError
                              ("Unable to retrieve app token from "
                                 +:+ dq +:+ path +:+ dq +:+ ".")))
             else if is_TypeError e then
               Some (in_world (log ERROR (ExceptionRaised e)) >>
                     raise UnsetAppTokenError)
             else None) in
      update_self (set_app_token (Some token))
  | _ => raise UnsetAppTokenError
  end.

(** ** [create_standard_sdk] *)

Definition create_standard_sdk (env : Env) (client_name_prefix : string)
    (service_clients : option (list Factory)) (cert_resource_glob : pystr)
  : M World Sdk :=
  log DEBUG (CreatingStandardSdk cert_resource_glob) >>
  with_local (Sdk_init (Some client_name_prefix))
    (let* client_name := in_world (generate_client_name env client_name_prefix) in
     load_robot_cert env cert_resource_glob >>
     update_self (fun s =>
       set_request_processors (request_processors s ++ [AddRequestHeader client_name]) s) >>
     (* all_service_clients is the list object _DEFAULT_SERVICE_CLIENTS itself,
        and += extends that object *)
     (match service_clients with
      | Some (c :: l) =>
          update_world (fun w =>
            set_default_service_clients (_DEFAULT_SERVICE_CLIENTS w ++ c :: l) w)
      | _ => ret tt
      end) >>
     let* w := world in
     for_each (_DEFAULT_SERVICE_CLIENTS w) (fun client =>
       register_service_client client None None) >>
     self).

(** * Definitions for the statements *)

(** Sample data, the readings of the claims that the code is compared with,
    and the loops of the module under a name. *)

Definition empty_world : World :=
  {| logged := []; _DEFAULT_SERVICE_CLIENTS := []; robot_objects := [] |}.

Definition loaded_sdk : Sdk := set_app_token (Some "header.payload.signature") (Sdk_init None).

(** The display name the claim C1 states for a robot created by
    [create_robot address name]: the name, or the address when the name was
    omitted. *)
Definition stated_display_name (address : string) (name : pystr) : string :=
  match name with
  | Some n => n
  | None => address
  end.

(** A class exposes no default when the attribute is missing or is [None]. *)
Definition no_default (a : attribute) : bool :=
  match a with
  | Some (Some _) => false
  | _ => true
  end.

(** A client class whose two attributes are there and are [None]. *)
Definition NamelessClient : Factory :=
  {| factory_name := "NamelessClient";
     default_service_name := Some None;
     service_type := Some None |}.

(** A callable with neither attribute, such as a plain function. *)
Definition plain_function : Factory :=
  {| factory_name := "make_client"; default_service_name := None; service_type := None |}.

(** A class that only names its service. *)
Definition UntypedClient : Factory :=
  {| factory_name := "UntypedClient";
     default_service_name := Some (Some "untyped");
     service_type := None |}.

(** The bytes of a file that can be read. *)
Definition contents (env : Env) (path : string) : bytes :=
  match open_read env path with
  | ReadOk data => data
  | ReadFail _ => []
  end.

Definition readable (env : Env) (path : string) : Prop :=
  exists data, open_read env path = ReadOk data.

(** The loop of [load_robot_cert] over the matched paths. *)
Definition read_certs (env : Env) (paths : list string) : M MethodState unit :=
  for_each paths (fun cert_path =>
    let* data := lift (open_rb env cert_path) in
    cert_iadd data).

(** Paths are compared as strings, character by character: [String.le]. *)
Abbreviation path_le := String.le.

(** The bundle the claim C2 states: the bytes of the matched regular files,
    taken in lexicographic order of their paths. *)
Definition bundle_in_path_order (env : Env) (pattern : string) : bytes :=
  concat (map (contents env) (merge_sort path_le (cert_paths env pattern))).

(** A directory with two certificates; [listing] is what [glob.glob]
    returns for the pattern, in the order of the directory entries. *)
Definition two_certs_env (listing : list string) : Env :=
  {| glob_glob := fun pattern => if String.eqb pattern "certs/*.pem" then listing else [];
     os_path_isfile := fun path =>
       String.eqb path "certs/cert1.pem" || String.eqb path "certs/cert2.pem";
     os_path_expanduser := fun path => path;
     open_read := fun path =>
       if String.eqb path "certs/cert1.pem" then ReadOk [Byte.x31]
       else if String.eqb path "certs/cert2.pem" then ReadOk [Byte.x32]
       else ReadFail 2;
     resource_robot_pem := [Byte.x30];
     bytes_decode := fun _ => None;
     str_strip := fun s => s;
     jwt_decode := fun _ => JwtDecodeError "Not enough segments";
     utcnow := 0;
     utcoffset := fun _ => 0;
     main_file_basename := None;
     os_getpid := "1";
     platform_node := "host";
     getpass_getuser := None |}.

(** An environment in which every token decodes to [payload], the clock
    shows [now] microseconds and local time is [offset] seconds from UTC. *)
Definition token_env (payload : jwt_result) (now offset : Z) : Env :=
  {| glob_glob := fun _ => [];
     os_path_isfile := fun _ => false;
     os_path_expanduser := fun path => path;
     open_read := fun path =>
       if String.eqb path "/home/spot/.bosdyn/app_token" then ReadOk [Byte.x30]
       else ReadFail 2;
     resource_robot_pem := [Byte.x30];
     bytes_decode := fun _ => Some "header.payload.signature";
     str_strip := fun s => s;
     jwt_decode := fun _ => payload;
     utcnow := now;
     utcoffset := fun _ => offset;
     main_file_basename := Some "hello_spot.py";
     os_getpid := "4242";
     platform_node := "workstation";
     getpass_getuser := Some "spot" |}.

(** The record that is logged for a token that expires at the wall-clock
    time [expire_time] when the clock shows [now]. *)
Definition expiration_record (expire_time now : Z) : level * message :=
  let time_to_expiration := expire_time - now in
  if time_to_expiration <? timedelta_seconds 0 then (ERROR, TokenHasExpired)
  else if time_to_expiration <=? timedelta_days 30 then
    (WARNING, TokenExpiresInDays (days_of time_to_expiration) (strftime_date expire_time))
  else (INFO, TokenExpiresOn (strftime_date expire_time)).

(** A workstation on the east coast of the United States in winter, five
    hours behind UTC, and a token that expires one hour after the time on
    the clock. *)
Definition boston_env : Env :=
  token_env (JwtPayload {[ "exp" := Int 1700003600 ]}) (timedelta_seconds 1700000000) (-18000).

(** The loop of [create_standard_sdk] over the service clients. *)
Definition register_all (clients : list Factory) : M MethodState unit :=
  for_each clients (fun client => register_service_client client None None).

(** A service client is registered in an [Sdk] when its default name and
    its type are keys of the two tables. *)
Definition registered (f : Factory) (sdk : Sdk) : Prop :=
  exists n t,
    default_service_name f = Some n
    /\ service_type f = Some t
    /\ is_Some (service_type_by_name sdk !! n)
    /\ is_Some (service_client_factories_by_type sdk !! t).

(** The clients that a call adds to [_DEFAULT_SERVICE_CLIENTS]. *)
Definition added_clients (service_clients : option (list Factory)) : list Factory :=
  match service_clients with
  | Some (c :: l) => c :: l
  | _ => []
  end.

(** A service client class with a default name and a type. *)
Definition client (name type : string) : Factory :=
  {| factory_name := name;
     default_service_name := Some (Some name);
     service_type := Some (Some type) |}.

Definition world_with_defaults : World :=
  {| logged := [];
     _DEFAULT_SERVICE_CLIENTS :=
       [client "auth" "bosdyn.api.AuthService";
        client "robot-id" "bosdyn.api.RobotIdService"];
     robot_objects := [] |}.

Definition extra_client : Factory := client "my-service" "my.api.MyService".

(** The [Sdk] of an outcome, when there is one. *)
Definition returned_sdk (r : outcome Sdk * World) : Sdk :=
  match fst r with
  | Ok sdk => sdk
  | Raise _ => Sdk_init None
  end.

(** The name and the type under which [register_service_client] stores a
    client: the argument when it is true, the attribute of the class
    otherwise. *)
Definition resolved_name (f : Factory) (service_name_arg : pystr) : outcome pystr :=
  or_getattr service_name_arg "default_service_name" (default_service_name f).

Definition resolved_type (f : Factory) (service_type_arg : pystr) : outcome pystr :=
  or_getattr service_type_arg "service_type" (service_type f).

(** Every reference of the cache points to an allocated robot object, and
    no two addresses share one. *)
Definition cache_wf (sdk : Sdk) (w : World) : Prop :=
  (forall a r, robots sdk !! a = Some r -> (r < length (robot_objects w))%nat)
  /\ (forall a b r, robots sdk !! a = Some r -> robots sdk !! b = Some r -> a = b).

(** Two client classes for the same service type, under different names. *)
Definition first_image_client : Factory := client "image" "bosdyn.api.ImageService".
Definition second_image_client : Factory := client "my-image" "bosdyn.api.ImageService".

(** A directory in which the second of three matched certificates cannot be
    read. *)
Definition unreadable_cert_env : Env :=
  {| glob_glob := fun _ => ["certs/a.pem"; "certs/b.pem"; "certs/c.pem"];
     os_path_isfile := fun _ => true;
     os_path_expanduser := fun path => path;
     open_read := fun path =>
       if String.eqb path "certs/a.pem" then ReadOk [Byte.x41]
       else if String.eqb path "certs/b.pem" then ReadFail 13
       else ReadOk [Byte.x43];
     resource_robot_pem := [Byte.x30];
     bytes_decode := fun _ => None;
     str_strip := fun s => s;
     jwt_decode := fun _ => JwtDecodeError "Not enough segments";
     utcnow := 0;
     utcoffset := fun _ => 0;
     main_file_basename := None;
     os_getpid := "1";
     platform_node := "host";
     getpass_getuser := None |}.

(** What a record of [log_token_time_remaining] looks like: expired, a
    warning that counts between zero and thirty days, or an information. *)
Definition expiration_record_ok (r : level * message) : Prop :=
  match r with
  | (ERROR, TokenHasExpired) => True
  | (WARNING, TokenExpiresInDays d _) => 0 <= d <= 30
  | (INFO, TokenExpiresOn _) => True
  | _ => False
  end.

(** The message of [load_app_token] for a file that cannot be loaded. *)
Definition unable_to_retrieve (resource_path : string) : string :=
  "Unable to retrieve app token from " +:+ dq +:+ resource_path +:+ dq +:+ ".".

(** A token file whose token decodes to [payload], on a clock that shows
    1700000000 seconds, where local time is UTC. *)
Definition token_file_env (payload : jwt_result) : Env :=
  token_env payload (timedelta_seconds 1700000000) 0.

(** The part of a client name that tells the process: the name of the main
    script, when there is one, and the process id. *)
Definition process_info (env : Env) : string :=
  match main_file_basename env with
  | Some f => f +:+ "-" +:+ os_getpid env
  | None => os_getpid env
  end.

(** The part of a client name that tells the host: the machine name, the
    user name when the machine has no name, a placeholder when the user name
    cannot be had either. *)
Definition host_part (env : Env) : string :=
  match platform_node env with
  | String c node => String c node
  | EmptyString =>
      match getpass_getuser env with
      | Some user => user
      | None => "<unknown host>"
      end
  end.

(** Whether [generate_client_name] has to give up on the host. *)
Definition host_unknown (env : Env) : bool :=
  match platform_node env, getpass_getuser env with
  | EmptyString, None => true
  | _, _ => false
  end.

(** A machine without a name, for a user whose name cannot be had. *)
Definition anonymous_env : Env :=
  {| glob_glob := fun _ => [];
     os_path_isfile := fun _ => false;
     os_path_expanduser := fun path => path;
     open_read := fun _ => ReadFail 2;
     resource_robot_pem := [Byte.x30];
     bytes_decode := fun _ => None;
     str_strip := fun s => s;
     jwt_decode := fun _ => JwtDecodeError "Not enough segments";
     utcnow := 0;
     utcoffset := fun _ => 0;
     main_file_basename := None;
     os_getpid := "4242";
     platform_node := EmptyString;
     getpass_getuser := None |}.

(** The dates that [datetime] can hold. *)
Definition valid_date (d : date) : Prop :=
  MINYEAR <= year d <= MAXYEAR /\ 1 <= month d <= 12 /\ 1 <= day d <= 31.

(** The date of a log record, when it shows one. *)
Definition record_date (r : level * message) : option date :=
  match snd r with
  | TokenExpiresInDays _ on => Some on
  | TokenExpiresOn on => Some on
  | _ => None
  end.

(** * Properties *)

Create HintDb py_run.
#[local] Hint Unfold bind ret raise modify lift zoom try_except
  self update_self world update_world in_world with_local log : py_run.

Ltac run_py := autounfold with py_run; simpl.

(** ** The calendar *)

Example civil_epoch : civil_from_days 0 = {| year := 1970; month := 1; day := 1 |}.
Proof. reflexivity. Qed.

Example civil_2024 : civil_from_days 19723 = {| year := 2024; month := 1; day := 1 |}.
Proof. reflexivity. Qed.

Example civil_leap_day : civil_from_days 19782 = {| year := 2024; month := 2; day := 29 |}.
Proof. reflexivity. Qed.

Example civil_before_epoch : civil_from_days (-1) = {| year := 1969; month := 12; day := 31 |}.
Proof. reflexivity. Qed.

Example civil_first_day : civil_from_days (-719162) = {| year := 1; month := 1; day := 1 |}.
Proof. reflexivity. Qed.

Example civil_last_day : civil_from_days 2932896 = {| year := 9999; month := 12; day := 31 |}.
Proof. reflexivity. Qed.

(** ** The robot cache *)

Lemma robot_objects_add_robot_object (r : Robot) (w : World) :
  robot_objects (add_robot_object r w) !! length (robot_objects w) = Some r.
Proof. simpl. apply list_lookup_middle. reflexivity. Qed.

(** [create_robot] on an address that is already in the cache returns the
    cached reference and changes nothing. *)
Lemma create_robot_cached (sdk : Sdk) (w : World) (address : string) (name : pystr)
    (token : string) (robot : nat) :
  app_token sdk = Some token ->
  robots sdk !! address = Some robot ->
  create_robot address name (sdk, w) = (Ok robot, (sdk, w)).
Proof.
  intros Htok Hin. unfold create_robot. run_py. rewrite Htok, Hin. reflexivity.
Qed.

(** [create_robot] on a new address allocates a robot named [name or address]
    and stores its reference under the address. *)
Lemma create_robot_fresh (sdk : Sdk) (w : World) (address : string) (name : pystr)
    (token : string) :
  app_token sdk = Some token ->
  robots sdk !! address = None ->
  create_robot address name (sdk, w) =
    (Ok (length (robot_objects w)),
     (set_robots (<[address := length (robot_objects w)]> (robots sdk)) sdk,
      add_robot_object
        (update_from sdk (set_robot_address address (Robot_init (py_or name address)))) w)).
Proof.
  intros Htok Hnew. unfold create_robot. run_py. rewrite Htok, Hnew. reflexivity.
Qed.

(** C1, as stated, fails: a robot created with the empty string as its name
    is displayed under its address, and not under the name that was given. *)
Lemma create_robot_empty_name_counterexample :
  exists robot s r,
    create_robot "192.168.80.3" (Some EmptyString) (loaded_sdk, empty_world) = (Ok robot, s)
    /\ create_robot "192.168.80.3" (Some "Spot") s = (Ok robot, s)
    /\ robot_objects (snd s) !! robot = Some r
    /\ robot_name r = "192.168.80.3"
    /\ robot_name r <> stated_display_name "192.168.80.3" (Some EmptyString).
Proof.
  eexists _, _, _. split; [|split; [|split; [|split]]].
  - eapply create_robot_fresh; [reflexivity | apply lookup_empty].
  - eapply create_robot_cached; [reflexivity | apply lookup_insert_eq].
  - apply robot_objects_add_robot_object.
  - reflexivity.
  - discriminate.
Qed.

(** C1, amended: with an app token loaded, [create_robot a n1] returns a
    reference, and a following [create_robot a n2] returns the same reference
    and leaves the [Sdk] and every robot object as they were, whatever [n2]
    is.  When the first call created the robot, its name is [n1] if [n1] is a
    non-empty string and the address [a] if [n1] is omitted or empty; when
    the address was cached before, the first call returned the cached
    robot unchanged. *)
Theorem create_robot_idempotent (sdk : Sdk) (w : World) (a : string) (n1 n2 : pystr)
    (token : string) :
  app_token sdk = Some token ->
  exists robot s1,
    create_robot a n1 (sdk, w) = (Ok robot, s1)
    /\ create_robot a n2 s1 = (Ok robot, s1)
    /\ (robots sdk !! a = None ->
        exists r, robot_objects (snd s1) !! robot = Some r
                  /\ robot_address r = Some a
                  /\ robot_name r = py_or n1 a
                  /\ (forall c s, n1 = Some (String c s) -> robot_name r = String c s)
                  /\ (n1 = None \/ n1 = Some EmptyString -> robot_name r = a))
    /\ (forall r0, robots sdk !! a = Some r0 -> robot = r0 /\ s1 = (sdk, w)).
Proof.
  intros Htok. destruct (robots sdk !! a) as [r0|] eqn:Hlook.
  - exists r0, (sdk, w). split; [|split; [|split]].
    + eapply create_robot_cached; eauto.
    + eapply create_robot_cached; eauto.
    + discriminate.
    + intros r1 [= <-]. auto.
  - eexists _, _. split; [|split; [|split]].
    + eapply create_robot_fresh; eauto.
    + eapply create_robot_cached; simpl; eauto. apply lookup_insert_eq.
    + intros _. eexists. split; [apply robot_objects_add_robot_object|].
      simpl. repeat split.
      * intros c s ->. reflexivity.
      * intros [-> | ->]; reflexivity.
    + discriminate.
Qed.

Lemma create_robot_idempotent_witness :
  app_token loaded_sdk = Some "header.payload.signature"
  /\ exists robot s1,
    create_robot "192.168.80.3" (Some "My First Robot") (loaded_sdk, empty_world) = (Ok robot, s1)
    /\ create_robot "192.168.80.3" (Some "Another Name") s1 = (Ok robot, s1)
    /\ (robots loaded_sdk !! "192.168.80.3" = None ->
        exists r, robot_objects (snd s1) !! robot = Some r
                  /\ robot_address r = Some "192.168.80.3"
                  /\ robot_name r = py_or (Some "My First Robot") "192.168.80.3"
                  /\ (forall c s, Some "My First Robot" = Some (String c s) ->
                      robot_name r = String c s)
                  /\ (Some "My First Robot" = None \/ Some "My First Robot" = Some EmptyString ->
                      robot_name r = "192.168.80.3"))
    /\ (forall r0, robots loaded_sdk !! "192.168.80.3" = Some r0 ->
        robot = r0 /\ s1 = (loaded_sdk, empty_world)).
Proof.
  split; [reflexivity|].
  apply (create_robot_idempotent loaded_sdk empty_world "192.168.80.3"
           (Some "My First Robot") (Some "Another Name") "header.payload.signature").
  reflexivity.
Defined.

(** C8: without an app token [create_robot] raises [UnsetAppTokenError],
    whatever the address and the name, and neither the cache of the [Sdk]
    nor the robot objects change. *)
Theorem create_robot_unset_app_token (sdk : Sdk) (w : World) (address : string)
    (name : pystr) :
  app_token sdk = None ->
  create_robot address name (sdk, w) = (Raise UnsetAppTokenError, (sdk, w)).
Proof.
  intros Htok. unfold create_robot. run_py. rewrite Htok. reflexivity.
Qed.

Lemma create_robot_unset_app_token_witness :
  app_token (Sdk_init None) = None
  /\ create_robot "192.168.80.3" (Some "My First Robot") (Sdk_init None, empty_world)
     = (Raise UnsetAppTokenError, (Sdk_init None, empty_world)).
Proof.
  split; [reflexivity|]. apply create_robot_unset_app_token. reflexivity.
Defined.

(** ** The service registry *)

(** What [register_service_client] does when neither a type nor a name is
    passed: the first missing attribute raises [AttributeError] before
    anything is stored; otherwise the values of the two attributes are
    stored, whatever they are. *)
Lemma register_service_client_defaults (f : Factory) (sdk : Sdk) (w : World) :
  register_service_client f None None (sdk, w) =
    match default_service_name f, service_type f with
    | None, _ => (Raise (AttributeError "default_service_name"), (sdk, w))
    | Some _, None => (Raise (AttributeError "service_type"), (sdk, w))
    | Some n, Some t =>
        (Ok tt,
         (set_registry (<[n := t]> (service_type_by_name sdk))
                       (<[t := f]> (service_client_factories_by_type sdk)) sdk, w))
    end.
Proof.
  unfold register_service_client. run_py.
  destruct (default_service_name f) as [n|], (service_type f) as [t|]; reflexivity.
Qed.

(** C4, as stated, fails: a class whose default name and type are [None] is
    registered without an error, under the key [None]. *)
Lemma register_none_defaults_counterexample :
  no_default (default_service_name NamelessClient) = true
  /\ no_default (service_type NamelessClient) = true
  /\ exists sdk',
      register_service_client NamelessClient None None (Sdk_init None, empty_world)
        = (Ok tt, (sdk', empty_world))
      /\ service_type_by_name sdk' !! None = Some None
      /\ service_client_factories_by_type sdk' !! None = Some NamelessClient.
Proof.
  split; [reflexivity|]. split; [reflexivity|].
  eexists. split; [rewrite register_service_client_defaults; reflexivity|].
  split; apply lookup_insert_eq.
Qed.

(** C4, amended: when neither a type nor a name is passed, registering a
    class that lacks the attribute [default_service_name], or that has it
    and lacks the attribute [service_type], raises [AttributeError] and
    leaves the [Sdk] unchanged. *)
Theorem register_service_client_missing_attribute (f : Factory) (sdk : Sdk) (w : World) :
  (default_service_name f = None ->
   register_service_client f None None (sdk, w)
     = (Raise (AttributeError "default_service_name"), (sdk, w)))
  /\ (default_service_name f <> None -> service_type f = None ->
      register_service_client f None None (sdk, w)
        = (Raise (AttributeError "service_type"), (sdk, w))).
Proof.
  rewrite register_service_client_defaults. split.
  - intros ->. reflexivity.
  - intros Hn ->. destruct (default_service_name f); [reflexivity | contradiction].
Qed.

Lemma register_service_client_missing_attribute_witness :
  (default_service_name plain_function = None
   /\ register_service_client plain_function None None (Sdk_init None, empty_world)
      = (Raise (AttributeError "default_service_name"), (Sdk_init None, empty_world)))
  /\ (default_service_name UntypedClient <> None
      /\ service_type UntypedClient = None
      /\ register_service_client UntypedClient None None (Sdk_init None, empty_world)
         = (Raise (AttributeError "service_type"), (Sdk_init None, empty_world))).
Proof.
  split.
  - split; [reflexivity|].
    apply (proj1 (register_service_client_missing_attribute plain_function
                    (Sdk_init None) empty_world)).
    reflexivity.
  - split; [discriminate|]. split; [reflexivity|].
    apply (proj2 (register_service_client_missing_attribute UntypedClient
                    (Sdk_init None) empty_world)).
    + discriminate.
    + reflexivity.
Defined.

(** ** Loading the robot certificate *)

Section LoadRobotCert.
Variable env : Env.

(** One turn of the loop. *)
Lemma read_certs_cons (p : string) (paths : list string) (sdk : Sdk) (w : World) :
  read_certs env (p :: paths) (sdk, w) =
    match open_read env p with
    | ReadOk data =>
        match cert sdk with
        | Some b => read_certs env paths (set_cert (Some (b ++ data)) sdk, w)
        | None => (Raise TypeError, (sdk, w))
        end
    | ReadFail errno => (Raise (OSError errno p), (sdk, w))
    end.
Proof.
  unfold read_certs. cbn [for_each]. unfold bind at 1. unfold bind at 1.
  unfold lift at 1. unfold open_rb at 1.
  destruct (open_read env p) as [data|errno]; [|reflexivity].
  unfold cert_iadd at 1. run_py. destruct (cert sdk); reflexivity.
Qed.

Lemma read_certs_ok (paths : list string) :
  forall (sdk : Sdk) (w : World) (b : bytes),
    cert sdk = Some b ->
    Forall (readable env) paths ->
    read_certs env paths (sdk, w) =
      (Ok tt, (set_cert (Some (b ++ concat (map (contents env) paths))) sdk, w)).
Proof.
  induction paths as [|p paths IH]; intros sdk w b Hb Hall.
  - simpl. unfold ret. rewrite app_nil_r.
    destruct sdk; simpl in *; subst; reflexivity.
  - apply Forall_cons in Hall as [[data Hp] Hall].
    rewrite read_certs_cons, Hp, Hb.
    rewrite (IH (set_cert (Some (b ++ data)) sdk) w (b ++ data) eq_refl Hall).
    assert (Hc : contents env p = data) by (unfold contents; rewrite Hp; reflexivity).
    change (concat (map (contents env) (p :: paths)))
      with (contents env p ++ concat (map (contents env) paths)).
    rewrite Hc, <- app_assoc. reflexivity.
Qed.

(** The loop raises only when a file cannot be read, and then with the
    error of [open]. *)
Lemma read_certs_raise (paths : list string) :
  forall (sdk : Sdk) (w : World) (b : bytes) (e : exn) (s' : MethodState),
    cert sdk = Some b ->
    read_certs env paths (sdk, w) = (Raise e, s') ->
    exists errno p, e = OSError errno p /\ p ∈ paths /\ open_read env p = ReadFail errno.
Proof.
  induction paths as [|p paths IH]; intros sdk w b e s' Hb Hrun.
  - discriminate.
  - rewrite read_certs_cons, Hb in Hrun.
    destruct (open_read env p) as [data|errno] eqn:Hp.
    + destruct (IH (set_cert (Some (b ++ data)) sdk) w (b ++ data) e s' eq_refl Hrun)
        as (errno & q & -> & Hq & Hfail).
      exists errno, q. repeat split; [right; exact Hq | exact Hfail].
    + injection Hrun as <- _. exists errno, p.
      repeat split; [left | exact Hp].
Qed.

Lemma load_robot_cert_no_match (pattern : string) (sdk : Sdk) (w : World) :
  cert_paths env pattern = [] ->
  load_robot_cert env (Some pattern) (sdk, w) =
    (Raise (IOError ("No files matched " +:+ dq +:+ pattern +:+ dq)),
     (set_cert None sdk, w)).
Proof.
  intros Hnone. unfold load_robot_cert. rewrite Hnone. reflexivity.
Qed.

Lemma load_robot_cert_match (pattern : string) (sdk : Sdk) (w : World) :
  cert_paths env pattern <> [] ->
  load_robot_cert env (Some pattern) (sdk, w) =
    read_certs env (cert_paths env pattern) (set_cert (Some []) sdk, w).
Proof.
  intros Hsome. unfold load_robot_cert.
  destruct (cert_paths env pattern) as [|p paths]; [contradiction|].
  reflexivity.
Qed.

Lemma load_robot_cert_default (sdk : Sdk) (w : World) :
  load_robot_cert env None (sdk, w) =
    (Ok tt, (set_cert (Some (resource_robot_pem env)) sdk, w)).
Proof. reflexivity. Qed.

End LoadRobotCert.

(** ** Lexicographic order of paths *)

(** Sorting a list of paths that is in order already changes nothing. *)
Lemma merge_sort_sorted (l : list string) :
  Sorted path_le l -> merge_sort path_le l = l.
Proof.
  intros Hl. apply (Sorted_unique path_le); [| exact Hl |].
  - apply Sorted_merge_sort, _.
  - apply merge_sort_Permutation.
Qed.

(** C2, as stated, fails: when the directory lists [cert2.pem] before
    [cert1.pem], the certificate is the bytes of [cert2.pem] followed by
    those of [cert1.pem], which is not the bundle in path order; and a run
    in which the same two files are listed the other way round loads a
    different certificate. *)
Lemma load_robot_cert_order_counterexample :
  let env := two_certs_env ["certs/cert2.pem"; "certs/cert1.pem"] in
  let env' := two_certs_env ["certs/cert1.pem"; "certs/cert2.pem"] in
  cert_paths env "certs/*.pem" <> []
  /\ String.ltb "certs/cert1.pem" "certs/cert2.pem" = true
  /\ bundle_in_path_order env "certs/*.pem" = [Byte.x31; Byte.x32]
  /\ load_robot_cert env (Some "certs/*.pem") (Sdk_init None, empty_world)
     = (Ok tt, (set_cert (Some [Byte.x32; Byte.x31]) (Sdk_init None), empty_world))
  /\ snd (load_robot_cert env (Some "certs/*.pem") (Sdk_init None, empty_world))
     <> (set_cert (Some (bundle_in_path_order env "certs/*.pem")) (Sdk_init None), empty_world)
  /\ load_robot_cert env' (Some "certs/*.pem") (Sdk_init None, empty_world)
     <> load_robot_cert env (Some "certs/*.pem") (Sdk_init None, empty_world).
Proof.
  cbv zeta. repeat split; try discriminate; vm_compute; try reflexivity; discriminate.
Qed.

(** C2, amended: when the pattern matches at least one regular file and the
    matched files can be read, [load_robot_cert] stores the bytes of those
    files concatenated in the order in which [glob.glob] returned them; no
    sorting takes place.  The result is the bundle in lexicographic path
    order when the paths were returned in that order. *)
Theorem load_robot_cert_glob_order (env : Env) (pattern : string) (sdk : Sdk) (w : World) :
  cert_paths env pattern <> [] ->
  Forall (readable env) (cert_paths env pattern) ->
  load_robot_cert env (Some pattern) (sdk, w) =
    (Ok tt,
     (set_cert (Some (concat (map (contents env) (cert_paths env pattern)))) sdk, w))
  /\ (Sorted path_le (cert_paths env pattern) ->
      concat (map (contents env) (cert_paths env pattern))
        = bundle_in_path_order env pattern).
Proof.
  intros Hsome Hread. split.
  - rewrite load_robot_cert_match by exact Hsome.
    rewrite (read_certs_ok env _ (set_cert (Some []) sdk) w [] eq_refl Hread).
    reflexivity.
  - intros Hsorted. unfold bundle_in_path_order.
    rewrite merge_sort_sorted by exact Hsorted. reflexivity.
Qed.

Lemma load_robot_cert_glob_order_witness :
  let env := two_certs_env ["certs/cert1.pem"; "certs/cert2.pem"] in
  cert_paths env "certs/*.pem" <> []
  /\ Forall (readable env) (cert_paths env "certs/*.pem")
  /\ load_robot_cert env (Some "certs/*.pem") (Sdk_init None, empty_world) =
       (Ok tt,
        (set_cert (Some (concat (map (contents env) (cert_paths env "certs/*.pem"))))
           (Sdk_init None), empty_world))
  /\ (Sorted path_le (cert_paths env "certs/*.pem") ->
      concat (map (contents env) (cert_paths env "certs/*.pem"))
        = bundle_in_path_order env "certs/*.pem").
Proof.
  cbv zeta.
  assert (Hsome : cert_paths (two_certs_env ["certs/cert1.pem"; "certs/cert2.pem"])
                    "certs/*.pem" <> []) by (vm_compute; discriminate).
  assert (Hread : Forall (readable (two_certs_env ["certs/cert1.pem"; "certs/cert2.pem"]))
                    (cert_paths (two_certs_env ["certs/cert1.pem"; "certs/cert2.pem"])
                       "certs/*.pem")).
  { repeat constructor; eexists; reflexivity. }
  split; [exact Hsome|]. split; [exact Hread|].
  exact (load_robot_cert_glob_order _ "certs/*.pem" (Sdk_init None) empty_world Hsome Hread).
Defined.

(** The two certificates of the example, loaded in path order. *)
Example load_cert1_cert2 :
  let env := two_certs_env ["certs/cert1.pem"; "certs/cert2.pem"] in
  load_robot_cert env (Some "certs/*.pem") (Sdk_init None, empty_world) =
    (Ok tt,
     (set_cert (Some (contents env "certs/cert1.pem" ++ contents env "certs/cert2.pem"))
        (Sdk_init None), empty_world)).
Proof. reflexivity. Qed.

(** C7: [load_robot_cert] with a pattern raises the error [No files matched]
    exactly when no regular file matches the pattern, and in that case the
    certificate is [None]: the packaged certificate is not loaded in its
    place. *)
Theorem load_robot_cert_no_files_iff (env : Env) (pattern : string) (sdk : Sdk) (w : World) :
  (fst (load_robot_cert env (Some pattern) (sdk, w))
     = Raise (IOError ("No files matched " +:+ dq +:+ pattern +:+ dq))
   <-> cert_paths env pattern = [])
  /\ (cert_paths env pattern = [] ->
      cert (fst (snd (load_robot_cert env (Some pattern) (sdk, w)))) = None).
Proof.
  split; [split|].
  - intros Hraise.
    destruct (cert_paths env pattern) as [|p paths] eqn:Hpaths; [reflexivity|].
    exfalso. rewrite load_robot_cert_match in Hraise by (rewrite Hpaths; discriminate).
    destruct (read_certs env (cert_paths env pattern) (set_cert (Some []) sdk, w))
      as [[[]|e] s'] eqn:Hrun; [discriminate|].
    apply (read_certs_raise env _ (set_cert (Some []) sdk) w [] e s' eq_refl) in Hrun.
    destruct Hrun as (errno & q & -> & _). discriminate.
  - intros Hnone. rewrite load_robot_cert_no_match by exact Hnone. reflexivity.
  - intros Hnone. rewrite load_robot_cert_no_match by exact Hnone. reflexivity.
Qed.

Lemma load_robot_cert_no_files_iff_witness :
  let env := two_certs_env [] in
  cert_paths env "certs/*.pem" = []
  /\ fst (load_robot_cert env (Some "certs/*.pem") (Sdk_init None, empty_world))
     = Raise (IOError ("No files matched " +:+ dq +:+ "certs/*.pem" +:+ dq))
  /\ cert (fst (snd (load_robot_cert env (Some "certs/*.pem") (Sdk_init None, empty_world))))
     = None.
Proof.
  cbv zeta.
  destruct (load_robot_cert_no_files_iff (two_certs_env []) "certs/*.pem"
              (Sdk_init None) empty_world) as [[_ Hraise] Hcert].
  split; [reflexivity|]. split; [apply Hraise | apply Hcert]; reflexivity.
Defined.

(** C10: [load_robot_cert] sets the certificate to [None] before it loads
    anything, so when no regular file matches the pattern the error leaves
    the [Sdk] with the certificate [None], whatever it was before, and with
    nothing else changed. *)
Theorem load_robot_cert_clears_cert (env : Env) (pattern : string) (sdk : Sdk)
    (w : World) (prior : option bytes) :
  cert sdk = prior ->
  cert_paths env pattern = [] ->
  exists e sdk',
    load_robot_cert env (Some pattern) (sdk, w) = (Raise e, (sdk', w))
    /\ cert sdk' = None
    /\ sdk' = set_cert None sdk.
Proof.
  intros _ Hnone. eexists _, _.
  split; [apply load_robot_cert_no_match; exact Hnone|].
  split; reflexivity.
Qed.

Lemma load_robot_cert_clears_cert_witness :
  let env := two_certs_env [] in
  let sdk := set_cert (Some [Byte.x30]) (Sdk_init None) in
  cert sdk = Some [Byte.x30]
  /\ cert_paths env "certs/*.pem" = []
  /\ exists e sdk',
    load_robot_cert env (Some "certs/*.pem") (sdk, empty_world) = (Raise e, (sdk', empty_world))
    /\ cert sdk' = None
    /\ sdk' = set_cert None sdk.
Proof.
  cbv zeta. split; [reflexivity|]. split; [reflexivity|].
  apply (load_robot_cert_clears_cert (two_certs_env []) "certs/*.pem"
           (set_cert (Some [Byte.x30]) (Sdk_init None)) empty_world (Some [Byte.x30]));
    reflexivity.
Defined.

(** ** Loading the app token *)

Lemma load_app_token_unset (env : Env) (path : pystr) (sdk : Sdk) (w : World) :
  truthy path = false ->
  load_app_token env path (sdk, w) = (Raise UnsetAppTokenError, (sdk, w)).
Proof.
  destruct path as [[|c p]|]; [reflexivity | discriminate | reflexivity].
Qed.

Lemma load_app_token_io_failure (env : Env) (c : Ascii.ascii) (p : string) (errno : Z)
    (sdk : Sdk) (w : World) :
  open_read env (os_path_expanduser env (String c p)) = ReadFail errno ->
  load_app_token env (Some (String c p)) (sdk, w) =
    (Raise (UnableToLoadAppTokenError
              ("Unable to retrieve app token from " +:+ dq +:+ String c p +:+ dq +:+ ".")),
     (sdk,
      add_log (ERROR, ExceptionRaised (OSError errno (os_path_expanduser env (String c p)))) w)).
Proof.
  intros Hopen. unfold load_app_token, open_rb. run_py. rewrite Hopen. reflexivity.
Qed.

(** C5: [load_app_token] raises [UnsetAppTokenError] for a path that is
    [None] or empty, and [UnableToLoadAppTokenError] for a path whose file
    cannot be opened or read; it raises neither [UnableToLoadAppTokenError]
    for an empty path nor [UnsetAppTokenError] for an I/O failure.  In both
    cases the [Sdk] is unchanged. *)
Theorem load_app_token_path_errors (env : Env) (sdk : Sdk) (w : World) :
  (forall path : pystr,
     truthy path = false ->
     load_app_token env path (sdk, w) = (Raise UnsetAppTokenError, (sdk, w))
     /\ forall msg, fst (load_app_token env path (sdk, w))
                    <> Raise (UnableToLoadAppTokenError msg))
  /\ (forall (path : string) (errno : Z),
        truthy (Some path) = true ->
        open_read env (os_path_expanduser env path) = ReadFail errno ->
        exists msg w',
          load_app_token env (Some path) (sdk, w)
            = (Raise (UnableToLoadAppTokenError msg), (sdk, w'))
          /\ msg = "Unable to retrieve app token from " +:+ dq +:+ path +:+ dq +:+ "."
          /\ fst (load_app_token env (Some path) (sdk, w)) <> Raise UnsetAppTokenError).
Proof.
  split.
  - intros path Hempty. rewrite load_app_token_unset by exact Hempty.
    split; [reflexivity | discriminate].
  - intros [|c p] errno Hpath Hopen; [discriminate|].
    eexists _, _. rewrite (load_app_token_io_failure env c p errno sdk w Hopen).
    split; [reflexivity|]. split; [reflexivity | discriminate].
Qed.

Lemma load_app_token_path_errors_witness :
  let env := two_certs_env [] in
  (truthy (Some EmptyString) = false
   /\ load_app_token env (Some EmptyString) (Sdk_init None, empty_world)
      = (Raise UnsetAppTokenError, (Sdk_init None, empty_world)))
  /\ (truthy (Some "/nonexistent/path") = true
      /\ open_read env (os_path_expanduser env "/nonexistent/path") = ReadFail 2
      /\ exists msg w',
          load_app_token env (Some "/nonexistent/path") (Sdk_init None, empty_world)
            = (Raise (UnableToLoadAppTokenError msg), (Sdk_init None, w'))
          /\ msg = "Unable to retrieve app token from "
                     +:+ dq +:+ "/nonexistent/path" +:+ dq +:+ "."
          /\ fst (load_app_token env (Some "/nonexistent/path") (Sdk_init None, empty_world))
             <> Raise UnsetAppTokenError).
Proof.
  cbv zeta.
  destruct (load_app_token_path_errors (two_certs_env []) (Sdk_init None) empty_world)
    as [Hunset Hio].
  split.
  - split; [reflexivity|]. apply Hunset. reflexivity.
  - split; [reflexivity|]. split; [reflexivity|].
    apply (Hio "/nonexistent/path" 2); reflexivity.
Defined.

(** ** Decoding the token and its expiration *)

Lemma decode_token_decode_error (env : Env) (token text : string) :
  jwt_decode env token = JwtDecodeError text ->
  decode_token env token =
    Raise (UnableToLoadAppTokenError
             ("Incorrectly formatted token " +:+ token +:+ " --- " +:+ text)).
Proof. intros H. unfold decode_token. rewrite H. reflexivity. Qed.

Lemma decode_token_other_exception (env : Env) (token text : string) :
  jwt_decode env token = JwtOtherException text ->
  decode_token env token =
    Raise (UnableToLoadAppTokenError
             ("Problem decoding token " +:+ token +:+ " --- " +:+ text)).
Proof. intros H. unfold decode_token. rewrite H. reflexivity. Qed.

Lemma decode_token_raises (env : Env) (token : string) (e : exn) :
  decode_token env token = Raise e ->
  exists msg,
    e = UnableToLoadAppTokenError ("Incorrectly formatted token " +:+ msg)
    \/ e = UnableToLoadAppTokenError ("Problem decoding token " +:+ msg).
Proof.
  unfold decode_token. destruct (jwt_decode env token); intros [= <-].
  - eexists. left. reflexivity.
  - eexists. right. reflexivity.
Qed.

Lemma string_app_assoc (a b c : string) : (a +:+ b) +:+ c = a +:+ (b +:+ c).
Proof.
  induction a as [|x a IH]; [reflexivity|].
  change (String x ((a +:+ b) +:+ c) = String x (a +:+ (b +:+ c))).
  rewrite IH. reflexivity.
Qed.

Lemma log_token_time_remaining_no_exp (env : Env) (token : string)
    (values : gmap string claim_value) (w : World) :
  jwt_decode env token = JwtPayload values ->
  values !! "exp" = None ->
  log_token_time_remaining env token w =
    (Raise (UnableToLoadAppTokenError "Unknown token expiration"), w).
Proof.
  intros Hdec Hexp. unfold log_token_time_remaining, decode_token. run_py.
  rewrite Hdec, Hexp. reflexivity.
Qed.

(** C6, as stated, fails: the error for a token that cannot be decoded and
    the error for a token without [exp] have the class of the error for a
    token file that cannot be read. *)
Lemma malformed_token_class_counterexample :
  let env := token_env (JwtDecodeError "Not enough segments") 0 0 in
  let env' := token_env (JwtPayload ∅) 0 0 in
  exists malformed no_exp unreadable,
    decode_token env "not a token" = Raise malformed
    /\ fst (log_token_time_remaining env' "header.payload.signature" empty_world)
       = Raise no_exp
    /\ fst (load_app_token env (Some "/nonexistent/path") (Sdk_init None, empty_world))
       = Raise unreadable
    /\ class_of malformed = class_of unreadable
    /\ class_of no_exp = class_of unreadable.
Proof.
  cbv zeta. eexists _, _, _. repeat split.
Qed.

(** C6, amended: [decode_token] raises [UnableToLoadAppTokenError] for a
    token that [jwt.decode] rejects, with a message that ends with the text
    of the decode failure, and [log_token_time_remaining] raises
    [UnableToLoadAppTokenError] for a decoded token without [exp].  Both
    errors have the same class as the error [load_app_token] raises for a
    file that cannot be read, and differ from it in their message only. *)
Theorem malformed_token_errors (env : Env) (w : World) :
  (forall token text,
     jwt_decode env token = JwtDecodeError text \/ jwt_decode env token = JwtOtherException text ->
     exists msg pre,
       decode_token env token = Raise (UnableToLoadAppTokenError msg)
       /\ msg = pre +:+ text)
  /\ (forall token values,
        jwt_decode env token = JwtPayload values ->
        values !! "exp" = None ->
        log_token_time_remaining env token w
          = (Raise (UnableToLoadAppTokenError "Unknown token expiration"), w))
  /\ (forall (path : string) (errno : Z) (sdk : Sdk) (unreadable : exn),
        truthy (Some path) = true ->
        open_read env (os_path_expanduser env path) = ReadFail errno ->
        fst (load_app_token env (Some path) (sdk, w)) = Raise unreadable ->
        (forall token malformed,
           decode_token env token = Raise malformed ->
           class_of malformed = class_of unreadable /\ malformed <> unreadable)
        /\ class_of (UnableToLoadAppTokenError "Unknown token expiration")
           = class_of unreadable
        /\ UnableToLoadAppTokenError "Unknown token expiration" <> unreadable).
Proof.
  split; [|split].
  - intros token text [Hdec | Hdec].
    + exists ("Incorrectly formatted token " +:+ token +:+ " --- " +:+ text),
        ("Incorrectly formatted token " +:+ token +:+ " --- ").
      split; [apply decode_token_decode_error; exact Hdec|].
      rewrite !string_app_assoc. reflexivity.
    + exists ("Problem decoding token " +:+ token +:+ " --- " +:+ text),
        ("Problem decoding token " +:+ token +:+ " --- ").
      split; [apply decode_token_other_exception; exact Hdec|].
      rewrite !string_app_assoc. reflexivity.
  - intros token values Hdec Hexp.
    exact (log_token_time_remaining_no_exp env token values w Hdec Hexp).
  - intros [|c p] errno sdk unreadable Hpath Hopen Hload; [discriminate|].
    rewrite (load_app_token_io_failure env c p errno sdk w Hopen) in Hload.
    injection Hload as <-. split; [|split].
    + intros token malformed Hmal.
      apply decode_token_raises in Hmal. destruct Hmal as (msg & [Hmal | Hmal]);
        subst malformed; (split; [reflexivity | discriminate]).
    + reflexivity.
    + discriminate.
Qed.

Lemma malformed_token_errors_witness :
  let env := token_env (JwtDecodeError "Not enough segments") 0 0 in
  let env' := token_env (JwtPayload ∅) 0 0 in
  (jwt_decode env "not a token" = JwtDecodeError "Not enough segments"
   /\ exists msg pre,
       decode_token env "not a token" = Raise (UnableToLoadAppTokenError msg)
       /\ msg = pre +:+ "Not enough segments")
  /\ (jwt_decode env' "header.payload.signature" = JwtPayload ∅
      /\ (∅ : gmap string claim_value) !! "exp" = None
      /\ log_token_time_remaining env' "header.payload.signature" empty_world
         = (Raise (UnableToLoadAppTokenError "Unknown token expiration"), empty_world))
  /\ (truthy (Some "/nonexistent/path") = true
      /\ open_read env (os_path_expanduser env "/nonexistent/path") = ReadFail 2
      /\ fst (load_app_token env (Some "/nonexistent/path") (Sdk_init None, empty_world))
         = Raise (UnableToLoadAppTokenError
                    ("Unable to retrieve app token from "
                       +:+ dq +:+ "/nonexistent/path" +:+ dq +:+ "."))
      /\ class_of (UnableToLoadAppTokenError "Unknown token expiration")
         = class_of (UnableToLoadAppTokenError
                       ("Unable to retrieve app token from "
                          +:+ dq +:+ "/nonexistent/path" +:+ dq +:+ "."))).
Proof.
  cbv zeta.
  destruct (malformed_token_errors (token_env (JwtDecodeError "Not enough segments") 0 0)
              empty_world) as (Hdecode & _ & Hclass).
  destruct (malformed_token_errors (token_env (JwtPayload ∅) 0 0) empty_world)
    as (_ & Hexp & _).
  split; [|split].
  - split; [reflexivity|]. apply Hdecode. left. reflexivity.
  - split; [reflexivity|]. split; [reflexivity|].
    apply (Hexp "header.payload.signature" ∅); reflexivity.
  - split; [reflexivity|]. split; [reflexivity|]. split; [reflexivity|].
    apply (Hclass "/nonexistent/path" 2 (Sdk_init None)); reflexivity.
Defined.

(** ** Time to expiration *)

Lemma fromtimestamp_ok (env : Env) (t dt : Z) :
  fromtimestamp env (Int t) = Ok dt ->
  dt = (t + utcoffset env t) * us_per_second.
Proof.
  unfold fromtimestamp.
  destruct ((t <? - 2 ^ 63) || (2 ^ 63 <=? t)); [discriminate|].
  destruct ((MINYEAR <=? _) && (_ <=? MAXYEAR)); [|discriminate].
  intros [= <-]. reflexivity.
Qed.

(** What [log_token_time_remaining] does for a token with an integer [exp]
    that [fromtimestamp] accepts: it logs one record, chosen by comparing
    the local time of [exp] with the UTC time of the clock. *)
Lemma log_token_time_remaining_exp (env : Env) (token : string)
    (values : gmap string claim_value) (t dt : Z) (w : World) :
  jwt_decode env token = JwtPayload values ->
  values !! "exp" = Some (Int t) ->
  fromtimestamp env (Int t) = Ok dt ->
  dt = (t + utcoffset env t) * us_per_second
  /\ log_token_time_remaining env token w
     = (Ok tt, add_log (expiration_record dt (utcnow env)) w).
Proof.
  intros Hdec Hexp Hts. split; [exact (fromtimestamp_ok env t dt Hts)|].
  unfold log_token_time_remaining, decode_token, expiration_record. run_py.
  rewrite Hdec, Hexp, Hts.
  destruct (dt - utcnow env <? timedelta_seconds 0); [reflexivity|].
  destruct (dt - utcnow env <=? timedelta_days 30); reflexivity.
Qed.

(** Where local time is UTC, the record is chosen by [exp - now]: an error
    below zero, a warning with the whole days up to thirty days, an
    information above. *)
Lemma log_token_time_remaining_utc (env : Env) (token : string)
    (values : gmap string claim_value) (t dt : Z) (w : World) :
  jwt_decode env token = JwtPayload values ->
  values !! "exp" = Some (Int t) ->
  fromtimestamp env (Int t) = Ok dt ->
  utcoffset env t = 0 ->
  let remaining := timedelta_seconds t - utcnow env in
  exists r,
    log_token_time_remaining env token w = (Ok tt, add_log r w)
    /\ (remaining < 0 -> r = (ERROR, TokenHasExpired))
    /\ (0 <= remaining <= timedelta_days 30 ->
        r = (WARNING, TokenExpiresInDays (remaining / us_per_day) (strftime_date dt)))
    /\ (timedelta_days 30 < remaining -> r = (INFO, TokenExpiresOn (strftime_date dt))).
Proof.
  intros Hdec Hexp Hts Hutc remaining.
  destruct (log_token_time_remaining_exp env token values t dt w Hdec Hexp Hts) as [Hdt Hlog].
  exists (expiration_record dt (utcnow env)). split; [exact Hlog|].
  assert (Hrem : dt - utcnow env = remaining).
  { subst dt remaining. rewrite Hutc. unfold timedelta_seconds. f_equal. lia. }
  unfold expiration_record. cbv zeta. rewrite Hrem. unfold days_of.
  change (timedelta_seconds 0) with 0.
  repeat split; intros H.
  - destruct (Z.ltb_spec remaining 0); [reflexivity | lia].
  - destruct (Z.ltb_spec remaining 0); [lia|].
    destruct (Z.leb_spec remaining (timedelta_days 30)); [reflexivity | lia].
  - assert (0 < timedelta_days 30) by reflexivity.
    destruct (Z.ltb_spec remaining 0); [lia|].
    destruct (Z.leb_spec remaining (timedelta_days 30)); [lia | reflexivity].
Qed.

(** C3: the code compares the local time of [exp] with the UTC time of the
    clock.  Five hours behind UTC, a token with one hour left, for which the
    claim states a warning that counts zero days, is logged as expired. *)
Theorem log_token_time_remaining_local_time :
  jwt_decode boston_env "header.payload.signature" = JwtPayload {[ "exp" := Int 1700003600 ]}
  /\ timedelta_seconds 1700003600 - utcnow boston_env = timedelta_seconds 3600
  /\ 0 <= timedelta_seconds 3600 <= timedelta_days 30
  /\ log_token_time_remaining boston_env "header.payload.signature" empty_world
     = (Ok tt, add_log (ERROR, TokenHasExpired) empty_world).
Proof.
  repeat split; try reflexivity; discriminate.
Qed.

(** An hour ahead of UTC, a token that expired a second ago is logged with a
    warning. *)
Example log_token_time_remaining_ahead_of_utc :
  let env := token_env (JwtPayload {[ "exp" := Int 1699999999 ]})
               (timedelta_seconds 1700000000) 3600 in
  log_token_time_remaining env "header.payload.signature" empty_world
  = (Ok tt,
     add_log (WARNING, TokenExpiresInDays 0 {| year := 2023; month := 11; day := 14 |})
       empty_world).
Proof. reflexivity. Qed.

(** The three credentials of the specification, where local time is UTC. *)
Example log_token_time_remaining_five_days :
  let env := token_env (JwtPayload {[ "exp" := Int (1700000000 + 5 * 86400) ]})
               (timedelta_seconds 1700000000) 0 in
  log_token_time_remaining env "header.payload.signature" empty_world
  = (Ok tt,
     add_log (WARNING, TokenExpiresInDays 5 {| year := 2023; month := 11; day := 19 |})
       empty_world).
Proof. reflexivity. Qed.

Example log_token_time_remaining_400_days :
  let env := token_env (JwtPayload {[ "exp" := Int (1700000000 + 400 * 86400) ]})
               (timedelta_seconds 1700000000) 0 in
  log_token_time_remaining env "header.payload.signature" empty_world
  = (Ok tt,
     add_log (INFO, TokenExpiresOn {| year := 2024; month := 12; day := 18 |}) empty_world).
Proof. reflexivity. Qed.

Example log_token_time_remaining_one_second_ago :
  let env := token_env (JwtPayload {[ "exp" := Int (1700000000 - 1) ]})
               (timedelta_seconds 1700000000) 0 in
  log_token_time_remaining env "header.payload.signature" empty_world
  = (Ok tt, add_log (ERROR, TokenHasExpired) empty_world).
Proof. reflexivity. Qed.

(** A numeric [exp] beyond the year 9999 is not classified: the conversion
    raises. *)
Example log_token_time_remaining_year_out_of_range :
  let env := token_env (JwtPayload {[ "exp" := Int 1000000000000 ]})
               (timedelta_seconds 1700000000) 0 in
  log_token_time_remaining env "header.payload.signature" empty_world
  = (Raise ValueError, empty_world).
Proof. reflexivity. Qed.

(** ** The default service clients *)

(** [create_standard_sdk], step by step. *)
Lemma create_standard_sdk_steps (env : Env) (prefix : string)
    (service_clients : option (list Factory)) (glob : pystr) (w : World) :
  create_standard_sdk env prefix service_clients glob w =
    match generate_client_name env prefix (add_log (DEBUG, CreatingStandardSdk glob) w) with
    | (Raise e, w1) => (Raise e, w1)
    | (Ok client_name, w1) =>
        match load_robot_cert env glob (Sdk_init (Some prefix), w1) with
        | (Raise e, s) => (Raise e, snd s)
        | (Ok _, (sdk2, w2)) =>
            let sdk3 :=
              set_request_processors
                (request_processors sdk2 ++ [AddRequestHeader client_name]) sdk2 in
            let w3 :=
              match service_clients with
              | Some (c :: l) =>
                  set_default_service_clients (_DEFAULT_SERVICE_CLIENTS w2 ++ c :: l) w2
              | _ => w2
              end in
            match register_all (_DEFAULT_SERVICE_CLIENTS w3) (sdk3, w3) with
            | (Raise e, s) => (Raise e, snd s)
            | (Ok _, (sdk, w')) => (Ok sdk, w')
            end
        end
    end.
Proof.
  unfold create_standard_sdk, register_all.
  unfold bind at 1, log at 1, modify at 1, with_local at 1.
  unfold bind at 1, in_world at 1, zoom at 1. cbn [fst snd].
  destruct (generate_client_name env prefix _) as [[client_name|e] w1]; [|reflexivity].
  unfold bind at 1.
  destruct (load_robot_cert env glob (Sdk_init (Some prefix), w1)) as [[[]|e] [sdk2 w2]];
    [|reflexivity].
  unfold bind at 1, update_self at 1, modify at 1. cbn [fst snd].
  unfold bind at 1.
  destruct service_clients as [[|c l]|]; run_py;
    match goal with
    | |- context [for_each ?l ?f ?s] => destruct (for_each l f s) as [[[]|e'] [sdk4 w4]]
    end; reflexivity.
Qed.

Lemma generate_client_name_returns (env : Env) (prefix : string) (w : World) :
  exists name w',
    generate_client_name env prefix w = (Ok name, w')
    /\ _DEFAULT_SERVICE_CLIENTS w' = _DEFAULT_SERVICE_CLIENTS w.
Proof.
  unfold generate_client_name. run_py.
  destruct (platform_node env) as [|c node]; [|eexists _, _; split; reflexivity].
  destruct (getpass_getuser env); eexists _, _; split; reflexivity.
Qed.

Lemma read_certs_world (env : Env) (paths : list string) :
  forall (sdk : Sdk) (w : World) r s',
    read_certs env paths (sdk, w) = (r, s') -> snd s' = w.
Proof.
  induction paths as [|p paths IH]; intros sdk w r s' Hrun.
  - injection Hrun as _ <-. reflexivity.
  - rewrite read_certs_cons in Hrun.
    destruct (open_read env p) as [data|errno].
    + destruct (cert sdk) as [b|].
      * eapply IH. exact Hrun.
      * injection Hrun as _ <-. reflexivity.
    + injection Hrun as _ <-. reflexivity.
Qed.

(** [load_robot_cert] touches nothing outside the [Sdk]. *)
Lemma load_robot_cert_world (env : Env) (glob : pystr) (sdk : Sdk) (w : World) r s' :
  load_robot_cert env glob (sdk, w) = (r, s') -> snd s' = w.
Proof.
  destruct glob as [pattern|].
  - destruct (cert_paths env pattern) as [|p paths] eqn:Hpaths.
    + rewrite load_robot_cert_no_match by exact Hpaths. intros [= _ <-]. reflexivity.
    + rewrite load_robot_cert_match by (rewrite Hpaths; discriminate).
      apply read_certs_world.
  - rewrite load_robot_cert_default. intros [= _ <-]. reflexivity.
Qed.

Lemma register_all_cons (f : Factory) (clients : list Factory) (sdk : Sdk) (w : World) :
  register_all (f :: clients) (sdk, w) =
    match default_service_name f, service_type f with
    | None, _ => (Raise (AttributeError "default_service_name"), (sdk, w))
    | Some _, None => (Raise (AttributeError "service_type"), (sdk, w))
    | Some n, Some t =>
        register_all clients
          (set_registry (<[n := t]> (service_type_by_name sdk))
                        (<[t := f]> (service_client_factories_by_type sdk)) sdk, w)
    end.
Proof.
  unfold register_all. cbn [for_each]. unfold bind at 1.
  rewrite register_service_client_defaults.
  destruct (default_service_name f), (service_type f); reflexivity.
Qed.

(** The loop leaves the world alone, and the outcome and the [Sdk] it
    yields do not depend on the world. *)
Lemma register_all_world (clients : list Factory) :
  forall (sdk : Sdk) (w w0 : World),
    register_all clients (sdk, w) =
      (fst (register_all clients (sdk, w0)),
       (fst (snd (register_all clients (sdk, w0))), w)).
Proof.
  induction clients as [|f clients IH]; intros sdk w w0; [reflexivity|].
  rewrite !register_all_cons.
  destruct (default_service_name f), (service_type f); try reflexivity.
  apply IH.
Qed.

(** When the loop ends without an error, every client of the list is
    registered, and so is whatever was registered before. *)
Lemma register_all_registered (clients : list Factory) :
  forall (sdk sdk' : Sdk) (w w' : World),
    register_all clients (sdk, w) = (Ok tt, (sdk', w')) ->
    (forall f, registered f sdk -> registered f sdk')
    /\ (forall f, f ∈ clients -> registered f sdk').
Proof.
  induction clients as [|f clients IH]; intros sdk sdk' w w' Hrun.
  - injection Hrun as <- _. split; [auto|]. intros f Hf. inversion Hf.
  - rewrite register_all_cons in Hrun.
    destruct (default_service_name f) as [n|] eqn:Hn; [|discriminate].
    destruct (service_type f) as [t|] eqn:Ht; [|discriminate].
    destruct (IH _ _ _ _ Hrun) as [Hkeep Hall].
    assert (Hstep : forall g, registered g sdk ->
              registered g (set_registry (<[n := t]> (service_type_by_name sdk))
                              (<[t := f]> (service_client_factories_by_type sdk)) sdk)).
    { intros g (n' & t' & Hn' & Ht' & Hin & Hit).
      exists n', t'. simpl. repeat split; try assumption.
      - rewrite lookup_insert_is_Some. destruct (decide (n = n')); auto.
      - rewrite lookup_insert_is_Some. destruct (decide (t = t')); auto. }
    split.
    + intros g Hg. apply Hkeep, Hstep, Hg.
    + intros g Hg. apply elem_of_cons in Hg as [-> | Hg]; [|apply Hall, Hg].
      apply Hkeep. exists n, t. simpl.
      repeat split; try assumption; rewrite lookup_insert_eq; eauto.
Qed.

(** The loop over the certificates changes the certificate only. *)
Lemma read_certs_sdk (env : Env) (paths : list string) :
  forall (sdk : Sdk) (w : World) r s',
    read_certs env paths (sdk, w) = (r, s') -> fst s' = set_cert (cert (fst s')) sdk.
Proof.
  induction paths as [|p paths IH]; intros sdk w r s' Hrun.
  - injection Hrun as _ <-. destruct sdk; reflexivity.
  - rewrite read_certs_cons in Hrun.
    destruct (open_read env p) as [data|errno].
    + destruct (cert sdk) as [b|].
      * apply IH in Hrun. rewrite Hrun at 1. reflexivity.
      * injection Hrun as _ <-. destruct sdk; reflexivity.
    + injection Hrun as _ <-. destruct sdk; reflexivity.
Qed.

Lemma load_robot_cert_sdk (env : Env) (glob : pystr) (sdk : Sdk) (w : World) r s' :
  load_robot_cert env glob (sdk, w) = (r, s') -> fst s' = set_cert (cert (fst s')) sdk.
Proof.
  destruct glob as [pattern|].
  - destruct (cert_paths env pattern) as [|p paths] eqn:Hpaths.
    + rewrite load_robot_cert_no_match by exact Hpaths. intros [= _ <-]. reflexivity.
    + rewrite load_robot_cert_match by (rewrite Hpaths; discriminate).
      intros Hrun. apply read_certs_sdk in Hrun. rewrite Hrun at 1. reflexivity.
  - rewrite load_robot_cert_default. intros [= _ <-]. reflexivity.
Qed.

(** A call that returns has extended [_DEFAULT_SERVICE_CLIENTS] by the
    clients it was passed, and has registered the whole extended list, in
    order, in an [Sdk] whose tables were empty. *)
Lemma create_standard_sdk_returns (env : Env) (prefix : string)
    (service_clients : option (list Factory)) (glob : pystr) (w w' : World) (sdk : Sdk) :
  create_standard_sdk env prefix service_clients glob w = (Ok sdk, w') ->
  _DEFAULT_SERVICE_CLIENTS w'
    = _DEFAULT_SERVICE_CLIENTS w ++ added_clients service_clients
  /\ exists base,
      service_type_by_name base = ∅
      /\ service_client_factories_by_type base = ∅
      /\ register_all (_DEFAULT_SERVICE_CLIENTS w ++ added_clients service_clients) (base, w')
         = (Ok tt, (sdk, w')).
Proof.
  rewrite create_standard_sdk_steps.
  destruct (generate_client_name_returns env prefix
              (add_log (DEBUG, CreatingStandardSdk glob) w)) as (name & w1 & -> & Hdef).
  simpl in Hdef.
  destruct (load_robot_cert env glob (Sdk_init (Some prefix), w1))
    as [[[]|e] [sdk2 w2]] eqn:Hload; [|discriminate].
  pose proof (load_robot_cert_world _ _ _ _ _ _ Hload) as Hw. simpl in Hw. subst w2.
  pose proof (load_robot_cert_sdk _ _ _ _ _ _ Hload) as Hsdk. simpl in Hsdk.
  cbv zeta.
  set (sdk3 := set_request_processors _ sdk2).
  set (w3 := match service_clients with Some (_ :: _) => _ | _ => w1 end).
  assert (Hw3 : _DEFAULT_SERVICE_CLIENTS w3
                = _DEFAULT_SERVICE_CLIENTS w ++ added_clients service_clients).
  { subst w3. rewrite <- Hdef.
    destruct service_clients as [[|c l]|]; simpl; rewrite ?app_nil_r; reflexivity. }
  rewrite (register_all_world _ sdk3 w3 w3).
  destruct (register_all (_DEFAULT_SERVICE_CLIENTS w3) (sdk3, w3))
    as [[[]|e] [sdk4 w4]] eqn:Hreg; [|discriminate].
  simpl. intros [= <- <-]. split; [exact Hw3|].
  exists sdk3. rewrite <- Hw3.
  split; [subst sdk3; rewrite Hsdk; reflexivity|].
  split; [subst sdk3; rewrite Hsdk; reflexivity|].
  rewrite (register_all_world _ sdk3 w3 w3), Hreg. reflexivity.
Qed.

(** C9: a call of [create_standard_sdk] with a non-empty list of service
    clients extends the module's list [_DEFAULT_SERVICE_CLIENTS] by them, and
    the list stays extended: a later call, even one that passes no service
    clients, registers the whole extended list, so the extra clients of the
    earlier call are registered in its [Sdk] too. *)
Theorem create_standard_sdk_extends_defaults (env : Env) (w w1 : World) (prefix : string)
    (c : Factory) (l : list Factory) (glob : pystr) (sdk1 : Sdk) :
  create_standard_sdk env prefix (Some (c :: l)) glob w = (Ok sdk1, w1) ->
  _DEFAULT_SERVICE_CLIENTS w1 = _DEFAULT_SERVICE_CLIENTS w ++ c :: l
  /\ forall (prefix' : string) (glob' : pystr) (sdk2 : Sdk) (w2 : World),
      create_standard_sdk env prefix' None glob' w1 = (Ok sdk2, w2) ->
      _DEFAULT_SERVICE_CLIENTS w2 = _DEFAULT_SERVICE_CLIENTS w ++ c :: l
      /\ (exists base,
            service_type_by_name base = ∅
            /\ service_client_factories_by_type base = ∅
            /\ register_all (_DEFAULT_SERVICE_CLIENTS w ++ c :: l) (base, w2)
               = (Ok tt, (sdk2, w2)))
      /\ (forall f, f ∈ c :: l -> registered f sdk2).
Proof.
  intros Hfirst. apply create_standard_sdk_returns in Hfirst as [Hdef1 _].
  simpl in Hdef1. split; [exact Hdef1|].
  intros prefix' glob' sdk2 w2 Hsecond.
  apply create_standard_sdk_returns in Hsecond as [Hdef2 (base & Hn & Ht & Hreg)].
  simpl in Hdef2. rewrite app_nil_r in Hdef2, Hreg. rewrite Hdef1 in Hdef2, Hreg.
  split; [exact Hdef2|]. split; [exists base; auto|].
  intros f Hf. apply (register_all_registered _ _ _ _ _ Hreg).
  apply elem_of_app. right. exact Hf.
Qed.

Lemma create_standard_sdk_extends_defaults_witness :
  let first := create_standard_sdk boston_env "hello_spot" (Some [extra_client]) None
                 world_with_defaults in
  let second := create_standard_sdk boston_env "estop_gui" None None (snd first) in
  first = (Ok (returned_sdk first), snd first)
  /\ second = (Ok (returned_sdk second), snd second)
  /\ _DEFAULT_SERVICE_CLIENTS (snd first)
     = _DEFAULT_SERVICE_CLIENTS world_with_defaults ++ [extra_client]
  /\ _DEFAULT_SERVICE_CLIENTS (snd second)
     = _DEFAULT_SERVICE_CLIENTS world_with_defaults ++ [extra_client]
  /\ (extra_client ∈ [extra_client] -> registered extra_client (returned_sdk second)).
Proof.
  cbv zeta.
  assert (Hfirst :
    create_standard_sdk boston_env "hello_spot" (Some [extra_client]) None world_with_defaults
    = (Ok (returned_sdk (create_standard_sdk boston_env "hello_spot" (Some [extra_client])
                           None world_with_defaults)),
       snd (create_standard_sdk boston_env "hello_spot" (Some [extra_client]) None
              world_with_defaults))) by (vm_compute; reflexivity).
  set (first := create_standard_sdk boston_env "hello_spot" (Some [extra_client]) None
                  world_with_defaults) in *.
  assert (Hsecond :
    create_standard_sdk boston_env "estop_gui" None None (snd first)
    = (Ok (returned_sdk (create_standard_sdk boston_env "estop_gui" None None (snd first))),
       snd (create_standard_sdk boston_env "estop_gui" None None (snd first))))
    by (vm_compute; reflexivity).
  destruct (create_standard_sdk_extends_defaults boston_env world_with_defaults (snd first)
              "hello_spot" extra_client [] None (returned_sdk first) Hfirst)
    as [Hdef Hlater].
  destruct (Hlater "estop_gui" None _ _ Hsecond) as (Hdef2 & _ & Hreg).
  split; [exact Hfirst|]. split; [exact Hsecond|]. split; [exact Hdef|].
  split; [exact Hdef2|]. apply Hreg.
Defined.

(** The tables of the second [Sdk] in the example: the client that only the
    first call was given is there. *)
Example second_sdk_has_extra_client :
  let first := create_standard_sdk boston_env "hello_spot" (Some [extra_client]) None
                 world_with_defaults in
  let second := create_standard_sdk boston_env "estop_gui" None None (snd first) in
  service_client_factories_by_type (returned_sdk second) !! Some "my.api.MyService"
    = Some extra_client
  /\ service_type_by_name (returned_sdk second) !! Some "my-service"
     = Some (Some "my.api.MyService").
Proof. split; vm_compute; reflexivity. Qed.


(** * Further properties of the module *)

(** ** The service registry *)

(** [register_service_client] with any arguments: the name is resolved
    first, then the type, and nothing is stored unless both are there. *)
Lemma register_service_client_run (f : Factory) (targ narg : pystr) (sdk : Sdk) (w : World) :
  register_service_client f targ narg (sdk, w) =
    match resolved_name f narg, resolved_type f targ with
    | Raise e, _ => (Raise e, (sdk, w))
    | Ok _, Raise e => (Raise e, (sdk, w))
    | Ok n, Ok t =>
        (Ok tt,
         (set_registry (<[n := t]> (service_type_by_name sdk))
                       (<[t := f]> (service_client_factories_by_type sdk)) sdk, w))
    end.
Proof.
  unfold register_service_client, resolved_name, resolved_type. run_py.
  destruct (or_getattr narg _ _); [|reflexivity].
  destruct (or_getattr targ _ _); reflexivity.
Qed.

Lemma or_getattr_truthy (x : pystr) (name : string) (a : attribute) :
  truthy x = true -> or_getattr x name a = Ok x.
Proof. intros H. unfold or_getattr. rewrite H. reflexivity. Qed.

(** X1: after a registration that returns, looking the resolved name up
    gives the resolved type, and looking that type up gives the registered
    class; an argument that is true is the key that is used. *)
Theorem register_service_client_lookup (f : Factory) (targ narg : pystr)
    (sdk sdk' : Sdk) (w w' : World) :
  register_service_client f targ narg (sdk, w) = (Ok tt, (sdk', w')) ->
  exists n t,
    resolved_name f narg = Ok n
    /\ resolved_type f targ = Ok t
    /\ service_type_by_name sdk' !! n = Some t
    /\ service_client_factories_by_type sdk' !! t = Some f
    /\ (truthy narg = true -> n = narg)
    /\ (truthy targ = true -> t = targ).
Proof.
  rewrite register_service_client_run.
  destruct (resolved_name f narg) as [n|e] eqn:Hn; [|discriminate].
  destruct (resolved_type f targ) as [t|e] eqn:Ht; [|discriminate].
  intros [= <- <-]. exists n, t. simpl.
  split; [reflexivity|]. split; [reflexivity|].
  split; [apply lookup_insert_eq|]. split; [apply lookup_insert_eq|].
  unfold resolved_name, resolved_type in *. split; intros Hx.
  - rewrite or_getattr_truthy in Hn by exact Hx. congruence.
  - rewrite or_getattr_truthy in Ht by exact Hx. congruence.
Qed.

Lemma register_service_client_lookup_witness :
  register_service_client (client "auth" "bosdyn.api.AuthService") None None
    (Sdk_init None, empty_world)
  = (Ok tt,
     (set_registry {[ Some "auth" := Some "bosdyn.api.AuthService" ]}
        {[ Some "bosdyn.api.AuthService" := client "auth" "bosdyn.api.AuthService" ]}
        (Sdk_init None), empty_world))
  /\ exists n t,
    resolved_name (client "auth" "bosdyn.api.AuthService") None = Ok n
    /\ resolved_type (client "auth" "bosdyn.api.AuthService") None = Ok t
    /\ service_type_by_name
         (set_registry {[ Some "auth" := Some "bosdyn.api.AuthService" ]}
            {[ Some "bosdyn.api.AuthService" := client "auth" "bosdyn.api.AuthService" ]}
            (Sdk_init None)) !! n = Some t
    /\ service_client_factories_by_type
         (set_registry {[ Some "auth" := Some "bosdyn.api.AuthService" ]}
            {[ Some "bosdyn.api.AuthService" := client "auth" "bosdyn.api.AuthService" ]}
            (Sdk_init None)) !! t = Some (client "auth" "bosdyn.api.AuthService")
    /\ (truthy None = true -> n = None)
    /\ (truthy None = true -> t = None).
Proof.
  assert (Hrun :
    register_service_client (client "auth" "bosdyn.api.AuthService") None None
      (Sdk_init None, empty_world)
    = (Ok tt,
       (set_registry {[ Some "auth" := Some "bosdyn.api.AuthService" ]}
          {[ Some "bosdyn.api.AuthService" := client "auth" "bosdyn.api.AuthService" ]}
          (Sdk_init None), empty_world))) by reflexivity.
  split; [exact Hrun|].
  exact (register_service_client_lookup _ None None _ _ _ _ Hrun).
Defined.

(** X2: when a type and a name are passed and are true, the attributes of
    the class are not read: the registration succeeds for every callable,
    also one without the attributes, and the passed values are the keys. *)
Theorem register_service_client_explicit (f : Factory) (targ narg : pystr)
    (sdk : Sdk) (w : World) :
  truthy targ = true ->
  truthy narg = true ->
  exists sdk',
    register_service_client f targ narg (sdk, w) = (Ok tt, (sdk', w))
    /\ service_type_by_name sdk' !! narg = Some targ
    /\ service_client_factories_by_type sdk' !! targ = Some f
    /\ (forall k, k <> narg -> service_type_by_name sdk' !! k = service_type_by_name sdk !! k)
    /\ (forall k, k <> targ ->
        service_client_factories_by_type sdk' !! k
          = service_client_factories_by_type sdk !! k).
Proof.
  intros Ht Hn. rewrite register_service_client_run.
  unfold resolved_name, resolved_type. rewrite !or_getattr_truthy by assumption.
  eexists. split; [reflexivity|]. simpl.
  split; [apply lookup_insert_eq|]. split; [apply lookup_insert_eq|].
  split; intros k Hk; apply lookup_insert_ne; congruence.
Qed.

Lemma register_service_client_explicit_witness :
  truthy (Some "my.api.MyService") = true
  /\ truthy (Some "my-service") = true
  /\ exists sdk',
    register_service_client plain_function (Some "my.api.MyService") (Some "my-service")
      (Sdk_init None, empty_world) = (Ok tt, (sdk', empty_world))
    /\ service_type_by_name sdk' !! Some "my-service" = Some (Some "my.api.MyService")
    /\ service_client_factories_by_type sdk' !! Some "my.api.MyService" = Some plain_function
    /\ (forall k, k <> Some "my-service" ->
        service_type_by_name sdk' !! k = service_type_by_name (Sdk_init None) !! k)
    /\ (forall k, k <> Some "my.api.MyService" ->
        service_client_factories_by_type sdk' !! k
          = service_client_factories_by_type (Sdk_init None) !! k).
Proof.
  split; [reflexivity|]. split; [reflexivity|].
  apply (register_service_client_explicit plain_function (Some "my.api.MyService")
           (Some "my-service") (Sdk_init None) empty_world); reflexivity.
Defined.

(** X3: a registration that fails raises [AttributeError] for one of the
    two attributes and stores nothing; a registration in any case leaves the
    token, the certificate, the processors, the robot cache and everything
    outside the [Sdk] as they were. *)
Theorem register_service_client_frame (f : Factory) (targ narg : pystr)
    (sdk : Sdk) (w : World) :
  let result := register_service_client f targ narg (sdk, w) in
  let sdk' := fst (snd result) in
  snd (snd result) = w
  /\ app_token sdk' = app_token sdk
  /\ cert sdk' = cert sdk
  /\ request_processors sdk' = request_processors sdk
  /\ response_processors sdk' = response_processors sdk
  /\ robots sdk' = robots sdk
  /\ (forall e, fst result = Raise e ->
      sdk' = sdk
      /\ (e = AttributeError "default_service_name" \/ e = AttributeError "service_type")).
Proof.
  cbv zeta. rewrite register_service_client_run.
  unfold resolved_name, resolved_type, or_getattr, getattr.
  destruct (truthy narg), (truthy targ),
    (default_service_name f) as [n|], (service_type f) as [t|]; simpl;
    repeat match goal with |- _ /\ _ => split end; try reflexivity;
    intros e He; try discriminate He; injection He as <-; auto.
Qed.

Lemma register_all_app (l1 l2 : list Factory) :
  forall (sdk : Sdk) (w : World),
    register_all (l1 ++ l2) (sdk, w) =
      match register_all l1 (sdk, w) with
      | (Ok _, s) => register_all l2 s
      | (Raise e, s) => (Raise e, s)
      end.
Proof.
  induction l1 as [|f l1 IH]; intros sdk w; [reflexivity|].
  change ((f :: l1) ++ l2) with (f :: (l1 ++ l2)). rewrite !register_all_cons.
  destruct (default_service_name f), (service_type f); try reflexivity.
  apply IH.
Qed.

(** The loop does not touch a type that none of its clients has. *)
Lemma register_all_other_type (clients : list Factory) (t : pystr) :
  forall (sdk sdk' : Sdk) (w w' : World),
    register_all clients (sdk, w) = (Ok tt, (sdk', w')) ->
    (forall g, g ∈ clients -> service_type g <> Some t) ->
    service_client_factories_by_type sdk' !! t
      = service_client_factories_by_type sdk !! t.
Proof.
  induction clients as [|f clients IH]; intros sdk sdk' w w' Hrun Hother.
  - injection Hrun as <- _. reflexivity.
  - rewrite register_all_cons in Hrun.
    destruct (default_service_name f) as [n|]; [|discriminate].
    destruct (service_type f) as [t'|] eqn:Ht; [|discriminate].
    rewrite (IH _ _ _ _ Hrun) by (intros g Hg; apply Hother; right; exact Hg).
    simpl. apply lookup_insert_ne. intros ->.
    apply (Hother f); [left | exact Ht].
Qed.

(** X4: the last registration of a type wins.  When the loop over a list of
    clients ends without an error, the class found under a type is the last
    client of the list that has this type. *)
Theorem register_all_last_wins (before after : list Factory) (f : Factory) (t : pystr)
    (sdk sdk' : Sdk) (w w' : World) :
  register_all (before ++ f :: after) (sdk, w) = (Ok tt, (sdk', w')) ->
  service_type f = Some t ->
  (forall g, g ∈ after -> service_type g <> Some t) ->
  service_client_factories_by_type sdk' !! t = Some f.
Proof.
  intros Hrun Ht Hafter. rewrite register_all_app in Hrun.
  destruct (register_all before (sdk, w)) as [[[]|e] [sdk1 w1]]; [|discriminate].
  rewrite register_all_cons, Ht in Hrun.
  destruct (default_service_name f) as [n|]; [|discriminate].
  rewrite (register_all_other_type after t _ _ _ _ Hrun Hafter).
  simpl. apply lookup_insert_eq.
Qed.

Lemma register_all_last_wins_witness :
  let sdk' := fst (snd (register_all [first_image_client; second_image_client; extra_client]
                          (Sdk_init None, empty_world))) in
  register_all ([first_image_client] ++ second_image_client :: [extra_client])
    (Sdk_init None, empty_world) = (Ok tt, (sdk', empty_world))
  /\ service_type second_image_client = Some (Some "bosdyn.api.ImageService")
  /\ (forall g, g ∈ [extra_client] -> service_type g <> Some (Some "bosdyn.api.ImageService"))
  /\ service_client_factories_by_type sdk' !! Some "bosdyn.api.ImageService"
     = Some second_image_client.
Proof.
  cbv zeta.
  assert (Hrun :
    register_all ([first_image_client] ++ second_image_client :: [extra_client])
      (Sdk_init None, empty_world)
    = (Ok tt,
       (fst (snd (register_all [first_image_client; second_image_client; extra_client]
                    (Sdk_init None, empty_world))), empty_world))) by (vm_compute; reflexivity).
  assert (Hafter : forall g, g ∈ [extra_client] ->
                     service_type g <> Some (Some "bosdyn.api.ImageService")).
  { intros g Hg. apply list_elem_of_singleton in Hg. subst g. discriminate. }
  split; [exact Hrun|]. split; [reflexivity|]. split; [exact Hafter|].
  exact (register_all_last_wins [first_image_client] [extra_client] second_image_client
           (Some "bosdyn.api.ImageService") _ _ _ _ Hrun eq_refl Hafter).
Defined.

(** ** The robot certificate *)

(** X5: [load_robot_cert] changes the certificate and nothing else, whether
    it returns or raises: the token, the processors, the registry, the robot
    cache and everything outside the [Sdk] are as before. *)
Theorem load_robot_cert_frame (env : Env) (glob : pystr) (sdk : Sdk) (w : World) :
  let result := load_robot_cert env glob (sdk, w) in
  let sdk' := fst (snd result) in
  snd (snd result) = w
  /\ sdk' = set_cert (cert sdk') sdk
  /\ app_token sdk' = app_token sdk
  /\ request_processors sdk' = request_processors sdk
  /\ service_client_factories_by_type sdk' = service_client_factories_by_type sdk
  /\ service_type_by_name sdk' = service_type_by_name sdk
  /\ robots sdk' = robots sdk.
Proof.
  cbv zeta.
  destruct (load_robot_cert env glob (sdk, w)) as [r s'] eqn:Hrun.
  pose proof (load_robot_cert_world _ _ _ _ _ _ Hrun) as Hw.
  pose proof (load_robot_cert_sdk _ _ _ _ _ _ Hrun) as Hsdk.
  simpl. split; [exact Hw|]. split; [exact Hsdk|].
  rewrite Hsdk. repeat split.
Qed.

Lemma read_certs_unreadable (env : Env) (before : list string) :
  forall (p : string) (after : list string) (errno : Z) (sdk : Sdk) (w : World) (b : bytes),
    cert sdk = Some b ->
    Forall (readable env) before ->
    open_read env p = ReadFail errno ->
    read_certs env (before ++ p :: after) (sdk, w) =
      (Raise (OSError errno p),
       (set_cert (Some (b ++ concat (map (contents env) before))) sdk, w)).
Proof.
  induction before as [|q before IH]; intros p after errno sdk w b Hb Hall Hp.
  - simpl. rewrite read_certs_cons, Hp, app_nil_r.
    destruct sdk; simpl in *; subst; reflexivity.
  - apply Forall_cons in Hall as [[data Hq] Hall].
    change ((q :: before) ++ p :: after) with (q :: (before ++ p :: after)).
    rewrite read_certs_cons, Hq, Hb.
    rewrite (IH p after errno (set_cert (Some (b ++ data)) sdk) w (b ++ data)
               eq_refl Hall Hp).
    assert (Hc : contents env q = data) by (unfold contents; rewrite Hq; reflexivity).
    change (concat (map (contents env) (q :: before)))
      with (contents env q ++ concat (map (contents env) before)).
    rewrite Hc, <- app_assoc. reflexivity.
Qed.

(** X6: when a matched file cannot be read, [load_robot_cert] raises the
    error of [open] for the first such file, and the certificate is left
    holding the bytes of the files before it: neither the old certificate
    nor the complete bundle. *)
Theorem load_robot_cert_unreadable (env : Env) (pattern p : string)
    (before after : list string) (errno : Z) (sdk : Sdk) (w : World) :
  cert_paths env pattern = before ++ p :: after ->
  Forall (readable env) before ->
  open_read env p = ReadFail errno ->
  load_robot_cert env (Some pattern) (sdk, w) =
    (Raise (OSError errno p),
     (set_cert (Some (concat (map (contents env) before))) sdk, w)).
Proof.
  intros Hpaths Hall Hp.
  rewrite load_robot_cert_match by (rewrite Hpaths; destruct before; discriminate).
  rewrite Hpaths.
  rewrite (read_certs_unreadable env before p after errno (set_cert (Some []) sdk) w []
             eq_refl Hall Hp).
  reflexivity.
Qed.

Lemma load_robot_cert_unreadable_witness :
  cert_paths unreadable_cert_env "certs/*.pem" = ["certs/a.pem"] ++ "certs/b.pem" :: ["certs/c.pem"]
  /\ Forall (readable unreadable_cert_env) ["certs/a.pem"]
  /\ open_read unreadable_cert_env "certs/b.pem" = ReadFail 13
  /\ load_robot_cert unreadable_cert_env (Some "certs/*.pem")
       (set_cert (Some [Byte.x30]) (Sdk_init None), empty_world) =
       (Raise (OSError 13 "certs/b.pem"),
        (set_cert (Some (concat (map (contents unreadable_cert_env) ["certs/a.pem"])))
           (set_cert (Some [Byte.x30]) (Sdk_init None)), empty_world)).
Proof.
  assert (Hall : Forall (readable unreadable_cert_env) ["certs/a.pem"]).
  { repeat constructor. eexists. reflexivity. }
  split; [reflexivity|]. split; [exact Hall|]. split; [reflexivity|].
  exact (load_robot_cert_unreadable unreadable_cert_env "certs/*.pem" "certs/b.pem"
           ["certs/a.pem"] ["certs/c.pem"] 13 _ empty_world eq_refl Hall eq_refl).
Defined.

(** The outcome of [load_robot_cert] does not depend on the certificate that
    was there before. *)
Lemma load_robot_cert_prior (env : Env) (glob : pystr) (c : option bytes)
    (sdk : Sdk) (w : World) :
  load_robot_cert env glob (set_cert c sdk, w) = load_robot_cert env glob (sdk, w).
Proof. reflexivity. Qed.

(** X7: loading the certificate again, with the same argument and the same
    files, gives the same outcome and the same state as loading it once,
    also when the load fails. *)
Theorem load_robot_cert_again (env : Env) (glob : pystr) (sdk : Sdk) (w : World) :
  load_robot_cert env glob (snd (load_robot_cert env glob (sdk, w)))
    = load_robot_cert env glob (sdk, w).
Proof.
  destruct (load_robot_cert env glob (sdk, w)) as [r [sdk' w']] eqn:Hrun.
  pose proof (load_robot_cert_world _ _ _ _ _ _ Hrun) as Hw.
  pose proof (load_robot_cert_sdk _ _ _ _ _ _ Hrun) as Hsdk.
  simpl in *. subst w'.
  transitivity (load_robot_cert env glob (set_cert (cert sdk') sdk, w)).
  - rewrite <- Hsdk. reflexivity.
  - rewrite load_robot_cert_prior. exact Hrun.
Qed.

(** ** The app token *)

(** [log_token_time_remaining], step by step. *)
Lemma log_token_time_remaining_run (env : Env) (token : string) (w : World) :
  log_token_time_remaining env token w =
    match decode_token env token with
    | Raise e => (Raise e, w)
    | Ok values =>
        match values !! "exp" with
        | None => (Raise (UnableToLoadAppTokenError "Unknown token expiration"), w)
        | Some exp =>
            match fromtimestamp env exp with
            | Raise e => (Raise e, w)
            | Ok dt => (Ok tt, add_log (expiration_record dt (utcnow env)) w)
            end
        end
    end.
Proof.
  unfold log_token_time_remaining, expiration_record. run_py.
  destruct (decode_token env token) as [values|e]; [|reflexivity].
  destruct (values !! "exp") as [exp|]; [|reflexivity].
  destruct (fromtimestamp env exp) as [dt|e]; [|reflexivity].
  destruct (dt - utcnow env <? timedelta_seconds 0); [reflexivity|].
  destruct (dt - utcnow env <=? timedelta_days 30); reflexivity.
Qed.

Lemma fromtimestamp_raises (env : Env) (v : claim_value) (e : exn) :
  fromtimestamp env v = Raise e ->
  e = TypeError \/ e = ValueError \/ e = OverflowError.
Proof.
  unfold fromtimestamp. destruct v as [t|repr].
  - destruct ((t <? - 2 ^ 63) || (2 ^ 63 <=? t)); [intros [= <-]; auto|].
    destruct ((MINYEAR <=? _) && (_ <=? MAXYEAR)); [discriminate|].
    intros [= <-]; auto.
  - intros [= <-]; auto.
Qed.

Lemma decode_token_raises_class (env : Env) (token : string) (e : exn) :
  decode_token env token = Raise e ->
  exists msg, e = UnableToLoadAppTokenError msg.
Proof.
  intros H. apply decode_token_raises in H as [msg [-> | ->]]; eexists; reflexivity.
Qed.

Lemma expiration_record_shape (expire_time now : Z) :
  expiration_record_ok (expiration_record expire_time now).
Proof.
  unfold expiration_record. cbv zeta.
  change (timedelta_seconds 0) with 0.
  destruct (Z.ltb_spec (expire_time - now) 0) as [Hneg|Hpos]; [exact I|].
  destruct (Z.leb_spec (expire_time - now) (timedelta_days 30)) as [Hle|Hgt]; [|exact I].
  simpl. unfold days_of. unfold timedelta_days in Hle.
  assert (Hday : 0 < us_per_day) by reflexivity.
  split.
  - apply Z.div_pos; [exact Hpos | exact Hday].
  - apply Z.div_le_upper_bound; [exact Hday|]. lia.
Qed.


(** [load_app_token] on a path that is not empty, step by step. *)
Lemma load_app_token_run (env : Env) (c : Ascii.ascii) (p : string) (sdk : Sdk) (w : World) :
  load_app_token env (Some (String c p)) (sdk, w) =
    match open_read env (os_path_expanduser env (String c p)) with
    | ReadFail errno =>
        (Raise (UnableToLoadAppTokenError (unable_to_retrieve (String c p))),
         (sdk,
          add_log (ERROR,
                   ExceptionRaised (OSError errno (os_path_expanduser env (String c p)))) w))
    | ReadOk raw =>
        match bytes_decode env raw with
        | None => (Raise UnicodeDecodeError, (sdk, w))
        | Some text =>
            match log_token_time_remaining env (str_strip env text) w with
            | (Ok _, w1) => (Ok tt, (set_app_token (Some (str_strip env text)) sdk, w1))
            | (Raise e, w1) =>
                if is_IOError e then
                  (Raise (UnableToLoadAppTokenError (unable_to_retrieve (String c p))),
                   (sdk, add_log (ERROR, ExceptionRaised e) w1))
                else if is_TypeError e then
                  (Raise UnsetAppTokenError, (sdk, add_log (ERROR, ExceptionRaised e) w1))
                else (Raise e, (sdk, w1))
            end
        end
    end.
Proof.
  unfold load_app_token, open_rb, unable_to_retrieve. run_py.
  destruct (open_read env _) as [raw|errno]; [|reflexivity].
  destruct (bytes_decode env raw) as [text|]; [|reflexivity].
  simpl.
  destruct (log_token_time_remaining env (str_strip env text) w) as [[[]|e] w1];
    [reflexivity|].
  simpl. destruct (is_IOError e); [reflexivity|].
  destruct (is_TypeError e); reflexivity.
Qed.



(** The errors of [log_token_time_remaining] are not I/O errors. *)
Lemma log_token_time_remaining_raises (env : Env) (token : string) (w w1 : World) (e : exn) :
  log_token_time_remaining env token w = (Raise e, w1) ->
  w1 = w
  /\ is_IOError e = false
  /\ (is_TypeError e = true -> e = TypeError)
  /\ ((exists msg, e = UnableToLoadAppTokenError msg)
      \/ e = TypeError \/ e = ValueError \/ e = OverflowError).
Proof.
  rewrite log_token_time_remaining_run.
  assert (Hcases : forall w0,
            (Raise e : outcome unit, w0) = (Raise e, w1) ->
            (exists msg, e = UnableToLoadAppTokenError msg)
            \/ e = TypeError \/ e = ValueError \/ e = OverflowError ->
            w1 = w0
            /\ is_IOError e = false
            /\ (is_TypeError e = true -> e = TypeError)
            /\ ((exists msg, e = UnableToLoadAppTokenError msg)
                \/ e = TypeError \/ e = ValueError \/ e = OverflowError)).
  { intros w0 [= <-] Hc. split; [reflexivity|].
    destruct Hc as [[msg ->] | [-> | [-> | ->]]]; repeat split; eauto; discriminate. }
  destruct (decode_token env token) as [values|e0] eqn:Hdec.
  - destruct (values !! "exp") as [exp|].
    + destruct (fromtimestamp env exp) as [dt|e0] eqn:Hts; [discriminate|].
      intros [= <- <-]. apply Hcases; [reflexivity|].
      right. apply (fromtimestamp_raises env exp). exact Hts.
    + intros [= <- <-]. apply Hcases; [reflexivity|]. left. eexists. reflexivity.
  - intros [= <- <-]. apply Hcases; [reflexivity|].
    left. apply (decode_token_raises_class env token). exact Hdec.
Qed.

(** The outcomes of [load_app_token] that raise. *)
Lemma load_app_token_raises (env : Env) (path : pystr) (sdk : Sdk) (w : World)
    (e : exn) (s' : MethodState) :
  load_app_token env path (sdk, w) = (Raise e, s') ->
  fst s' = sdk
  /\ (e = UnsetAppTokenError
      \/ (exists msg, e = UnableToLoadAppTokenError msg)
      \/ e = UnicodeDecodeError \/ e = ValueError \/ e = OverflowError).
Proof.
  destruct path as [[|c p]|]; try (intros [= <- <-]; split; auto).
  rewrite load_app_token_run.
  destruct (open_read env _) as [raw|errno].
  - destruct (bytes_decode env raw) as [text|].
    + destruct (log_token_time_remaining env (str_strip env text) w) as [[[]|e0] w1] eqn:Hlog;
        [discriminate|].
      apply log_token_time_remaining_raises in Hlog as (_ & Hio & Hty & Hcases).
      rewrite Hio. destruct (is_TypeError e0) eqn:Hte.
      * intros [= <- <-]. split; auto.
      * intros [= <- <-]. split; [reflexivity|].
        destruct Hcases as [Hc | [-> | [-> | ->]]]; auto. discriminate.
    + intros [= <- <-]. split; auto.
  - intros [= <- <-]. split; [reflexivity|]. right. left. eexists. reflexivity.
Qed.

(** X10: a load of the app token that fails leaves the [Sdk] as it was: a
    token that was loaded before stays loaded, and so [create_robot] keeps
    working with it. *)
Theorem load_app_token_failure_keeps_token (env : Env) (path : pystr) (sdk : Sdk)
    (w : World) (e : exn) (s' : MethodState) :
  load_app_token env path (sdk, w) = (Raise e, s') ->
  fst s' = sdk
  /\ app_token (fst s') = app_token sdk
  /\ _DEFAULT_SERVICE_CLIENTS (snd s') = _DEFAULT_SERVICE_CLIENTS w
  /\ robot_objects (snd s') = robot_objects w.
Proof.
  intros Hrun. pose proof (load_app_token_raises env path sdk w e s' Hrun) as [Hsdk _].
  split; [exact Hsdk|]. split; [rewrite Hsdk; reflexivity|].
  revert Hrun. destruct path as [[|c p]|]; try (intros [= _ <-]; split; reflexivity).
  rewrite load_app_token_run.
  destruct (open_read env _) as [raw|errno].
  - destruct (bytes_decode env raw) as [text|].
    + destruct (log_token_time_remaining env (str_strip env text) w) as [[[]|e0] w1] eqn:Hlog;
        [discriminate|].
      apply log_token_time_remaining_raises in Hlog as (-> & _).
      destruct (is_IOError e0); [intros [= _ <-]; split; reflexivity|].
      destruct (is_TypeError e0); intros [= _ <-]; split; reflexivity.
    + intros [= _ <-]. split; reflexivity.
  - intros [= _ <-]. split; reflexivity.
Qed.

Lemma load_app_token_failure_keeps_token_witness :
  let env := token_file_env (JwtPayload ∅) in
  load_app_token env (Some "/home/spot/.bosdyn/app_token") (loaded_sdk, empty_world)
    = (Raise (UnableToLoadAppTokenError "Unknown token expiration"), (loaded_sdk, empty_world))
  /\ fst (loaded_sdk, empty_world) = loaded_sdk
  /\ app_token (fst (loaded_sdk, empty_world)) = app_token loaded_sdk
  /\ _DEFAULT_SERVICE_CLIENTS (snd (loaded_sdk, empty_world))
     = _DEFAULT_SERVICE_CLIENTS empty_world
  /\ robot_objects (snd (loaded_sdk, empty_world)) = robot_objects empty_world.
Proof.
  cbv zeta.
  assert (Hrun :
    load_app_token (token_file_env (JwtPayload ∅)) (Some "/home/spot/.bosdyn/app_token")
      (loaded_sdk, empty_world)
    = (Raise (UnableToLoadAppTokenError "Unknown token expiration"),
       (loaded_sdk, empty_world))) by reflexivity.
  split; [exact Hrun|].
  exact (load_app_token_failure_keeps_token _ _ _ _ _ _ Hrun).
Defined.



(** X12: a token whose [exp] is there but is not a number makes the
    conversion raise [TypeError], which [load_app_token] reports as
    [UnsetAppTokenError], the error of a missing path, after logging it; the
    token is not loaded. *)
Theorem load_app_token_exp_not_a_number (env : Env) (path text repr : string) (raw : bytes)
    (values : gmap string claim_value) (sdk : Sdk) (w : World) :
  truthy (Some path) = true ->
  open_read env (os_path_expanduser env path) = ReadOk raw ->
  bytes_decode env raw = Some text ->
  jwt_decode env (str_strip env text) = JwtPayload values ->
  values !! "exp" = Some (NotANumber repr) ->
  load_app_token env (Some path) (sdk, w) =
    (Raise UnsetAppTokenError, (sdk, add_log (ERROR, ExceptionRaised TypeError) w)).
Proof.
  intros Hpath Hopen Hdecode Hjwt Hexp.
  destruct path as [|c p]; [discriminate|].
  rewrite load_app_token_run, Hopen, Hdecode, log_token_time_remaining_run.
  unfold decode_token. rewrite Hjwt, Hexp. reflexivity.
Qed.

Lemma load_app_token_exp_not_a_number_witness :
  let env := token_file_env (JwtPayload {[ "exp" := NotANumber "next year" ]}) in
  truthy (Some "/home/spot/.bosdyn/app_token") = true
  /\ open_read env (os_path_expanduser env "/home/spot/.bosdyn/app_token") = ReadOk [Byte.x30]
  /\ bytes_decode env [Byte.x30] = Some "header.payload.signature"
  /\ jwt_decode env (str_strip env "header.payload.signature")
     = JwtPayload {[ "exp" := NotANumber "next year" ]}
  /\ ({[ "exp" := NotANumber "next year" ]} : gmap string claim_value) !! "exp"
     = Some (NotANumber "next year")
  /\ load_app_token env (Some "/home/spot/.bosdyn/app_token") (Sdk_init None, empty_world) =
       (Raise UnsetAppTokenError,
        (Sdk_init None, add_log (ERROR, ExceptionRaised TypeError) empty_world)).
Proof.
  cbv zeta.
  split; [reflexivity|]. split; [reflexivity|]. split; [reflexivity|].
  split; [reflexivity|]. split; [reflexivity|].
  apply (load_app_token_exp_not_a_number
           (token_file_env (JwtPayload {[ "exp" := NotANumber "next year" ]}))
           "/home/spot/.bosdyn/app_token" "header.payload.signature" "next year" [Byte.x30]
           {[ "exp" := NotANumber "next year" ]} (Sdk_init None) empty_world); reflexivity.
Defined.

(** ** The robot cache *)

(** [create_robot], in its three cases. *)
Lemma create_robot_run (address : string) (name : pystr) (sdk : Sdk) (w : World) :
  create_robot address name (sdk, w) =
    match app_token sdk with
    | None => (Raise UnsetAppTokenError, (sdk, w))
    | Some _ =>
        match robots sdk !! address with
        | Some robot => (Ok robot, (sdk, w))
        | None =>
            (Ok (length (robot_objects w)),
             (set_robots (<[address := length (robot_objects w)]> (robots sdk)) sdk,
              add_robot_object
                (update_from sdk (set_robot_address address (Robot_init (py_or name address))))
                w))
        end
    end.
Proof.
  unfold create_robot. run_py.
  destruct (app_token sdk); [|reflexivity].
  destruct (robots sdk !! address); reflexivity.
Qed.

(** What [create_robot] keeps, in every outcome. *)
Lemma create_robot_adds (address : string) (name : pystr) (sdk : Sdk) (w : World) :
  let result := create_robot address name (sdk, w) in
  let sdk' := fst (snd result) in
  let w' := snd (snd result) in
  (forall a r, robots sdk !! a = Some r -> robots sdk' !! a = Some r)
  /\ (forall i o, robot_objects w !! i = Some o -> robot_objects w' !! i = Some o)
  /\ sdk' = set_robots (robots sdk') sdk
  /\ logged w' = logged w
  /\ _DEFAULT_SERVICE_CLIENTS w' = _DEFAULT_SERVICE_CLIENTS w
  /\ (cache_wf sdk w -> cache_wf sdk' w').
Proof.
  cbv zeta. rewrite create_robot_run.
  assert (Hsame :
    (forall a r, robots sdk !! a = Some r -> robots sdk !! a = Some r)
    /\ (forall i o, robot_objects w !! i = Some o -> robot_objects w !! i = Some o)
    /\ sdk = set_robots (robots sdk) sdk
    /\ logged w = logged w
    /\ _DEFAULT_SERVICE_CLIENTS w = _DEFAULT_SERVICE_CLIENTS w
    /\ (cache_wf sdk w -> cache_wf sdk w)).
  { split; [auto|]. split; [auto|]. split; [destruct sdk; reflexivity|].
    split; [reflexivity|]. split; [reflexivity | auto]. }
  destruct (app_token sdk) as [token|]; [|exact Hsame].
  destruct (robots sdk !! address) as [r0|] eqn:Hlook; [exact Hsame|].
  clear Hsame. unfold cache_wf. simpl.
  split; [|split; [|split; [|split; [|split]]]]; try reflexivity.
  - intros a r Ha. rewrite lookup_insert_ne; [exact Ha|]. congruence.
  - intros i o Hi. apply lookup_app_l_Some. exact Hi.
  - intros [Hbound Hinj]. split.
    + intros a r. rewrite length_app. simpl.
      destruct (decide (address = a)) as [->|Hne].
      * rewrite lookup_insert_eq. intros [= <-]. lia.
      * rewrite lookup_insert_ne by exact Hne. intros Ha. apply Hbound in Ha. lia.
    + intros a b r.
      destruct (decide (address = a)) as [Ea|Hna], (decide (address = b)) as [Eb|Hnb].
      * intros _ _. congruence.
      * subst a. rewrite lookup_insert_eq, lookup_insert_ne by exact Hnb.
        intros [= <-] Hb. apply Hbound in Hb. lia.
      * subst b. rewrite lookup_insert_ne by exact Hna. rewrite lookup_insert_eq.
        intros Ha [= <-]. apply Hbound in Ha. lia.
      * rewrite !lookup_insert_ne by assumption. apply Hinj.
Qed.

(** X13: [create_robot] only adds.  Whatever it returns or raises, every
    address that was in the cache still maps to the same robot, every robot
    object is where it was and unchanged, the rest of the [Sdk] is untouched,
    and the cache stays well formed: its references point to robot objects
    and no two addresses share a robot. *)
Theorem create_robot_only_adds (address : string) (name : pystr) (sdk : Sdk) (w : World) :
  let result := create_robot address name (sdk, w) in
  let sdk' := fst (snd result) in
  let w' := snd (snd result) in
  (forall a r, robots sdk !! a = Some r -> robots sdk' !! a = Some r)
  /\ (forall i o, robot_objects w !! i = Some o -> robot_objects w' !! i = Some o)
  /\ sdk' = set_robots (robots sdk') sdk
  /\ logged w' = logged w
  /\ _DEFAULT_SERVICE_CLIENTS w' = _DEFAULT_SERVICE_CLIENTS w
  /\ (cache_wf sdk w -> cache_wf sdk' w').
Proof.
  cbv zeta.
  destruct (create_robot_adds address name sdk w) as (Hcache & Hobjects & Hsdk & Hrest).
  split; [exact Hcache|]. split; [exact Hobjects|]. split; [exact Hsdk | exact Hrest].
Qed.

Lemma cache_wf_init (name : pystr) (w : World) : cache_wf (Sdk_init name) w.
Proof.
  split.
  - intros a r H. simpl in H. rewrite lookup_empty in H. discriminate.
  - intros a b r H. simpl in H. rewrite lookup_empty in H. discriminate.
Qed.

(** X14: with a token loaded and a well-formed cache, robots created for
    two different addresses are two different objects, each with its own
    address, and both stay in the cache. *)
Theorem create_robot_distinct (a b : string) (na nb : pystr) (token : string)
    (sdk : Sdk) (w : World) :
  app_token sdk = Some token ->
  cache_wf sdk w ->
  a <> b ->
  exists ra rb s1 s2,
    create_robot a na (sdk, w) = (Ok ra, s1)
    /\ create_robot b nb s1 = (Ok rb, s2)
    /\ ra <> rb
    /\ robots (fst s2) !! a = Some ra
    /\ robots (fst s2) !! b = Some rb.
Proof.
  intros Htok Hwf Hab.
  pose proof (create_robot_adds a na sdk w) as Hadd. cbv zeta in Hadd.
  destruct Hadd as (_ & _ & Hsdk1 & _ & _ & Hwf1). specialize (Hwf1 Hwf).
  assert (Hfirst : exists ra s1,
            create_robot a na (sdk, w) = (Ok ra, s1) /\ robots (fst s1) !! a = Some ra).
  { rewrite create_robot_run, Htok.
    destruct (robots sdk !! a) as [r0|] eqn:Hlook; eexists _, _; (split; [reflexivity|]).
    - exact Hlook.
    - simpl. apply lookup_insert_eq. }
  destruct Hfirst as (ra & [sdk1 w1] & Hrun1 & Hra).
  rewrite Hrun1 in Hsdk1, Hwf1. simpl in Hsdk1, Hwf1, Hra.
  assert (Htok1 : app_token sdk1 = Some token) by (rewrite Hsdk1; exact Htok).
  pose proof (create_robot_adds b nb sdk1 w1) as Hadd2. cbv zeta in Hadd2.
  destruct Hadd2 as (Hkeep & _ & _ & _ & _ & Hwf2). specialize (Hwf2 Hwf1).
  assert (Hsecond : exists rb s2,
            create_robot b nb (sdk1, w1) = (Ok rb, s2) /\ robots (fst s2) !! b = Some rb).
  { rewrite create_robot_run, Htok1.
    destruct (robots sdk1 !! b) as [r0|] eqn:Hlook; eexists _, _; (split; [reflexivity|]).
    - exact Hlook.
    - simpl. apply lookup_insert_eq. }
  destruct Hsecond as (rb & [sdk2 w2] & Hrun2 & Hrb).
  rewrite Hrun2 in Hkeep, Hwf2. simpl in Hkeep, Hwf2, Hrb.
  exists ra, rb, (sdk1, w1), (sdk2, w2).
  split; [exact Hrun1|]. split; [exact Hrun2|]. simpl.
  pose proof (Hkeep a ra Hra) as Hra2.
  split; [|split; assumption].
  intros ->. apply Hab. exact (proj2 Hwf2 a b rb Hra2 Hrb).
Qed.

Lemma create_robot_distinct_witness :
  app_token loaded_sdk = Some "header.payload.signature"
  /\ cache_wf loaded_sdk empty_world
  /\ "192.168.80.3" <> "192.168.80.4"
  /\ exists ra rb s1 s2,
    create_robot "192.168.80.3" None (loaded_sdk, empty_world) = (Ok ra, s1)
    /\ create_robot "192.168.80.4" None s1 = (Ok rb, s2)
    /\ ra <> rb
    /\ robots (fst s2) !! "192.168.80.3" = Some ra
    /\ robots (fst s2) !! "192.168.80.4" = Some rb.
Proof.
  assert (Hwf : cache_wf loaded_sdk empty_world) by apply cache_wf_init.
  assert (Hne : "192.168.80.3" <> "192.168.80.4") by discriminate.
  split; [reflexivity|]. split; [exact Hwf|]. split; [exact Hne|].
  exact (create_robot_distinct "192.168.80.3" "192.168.80.4" None None
           "header.payload.signature" loaded_sdk empty_world eq_refl Hwf Hne).
Defined.

(** ** The standard [Sdk] *)

Lemma read_certs_any_world (env : Env) (paths : list string) :
  forall (sdk : Sdk) (w w0 : World),
    read_certs env paths (sdk, w) =
      (fst (read_certs env paths (sdk, w0)),
       (fst (snd (read_certs env paths (sdk, w0))), w)).
Proof.
  induction paths as [|p paths IH]; intros sdk w w0; [reflexivity|].
  rewrite !read_certs_cons.
  destruct (open_read env p) as [data|errno]; [|reflexivity].
  destruct (cert sdk) as [b|]; [apply IH | reflexivity].
Qed.

(** The outcome of [load_robot_cert] and the [Sdk] it leaves do not depend
    on what is outside the [Sdk]. *)
Lemma load_robot_cert_any_world (env : Env) (glob : pystr) (sdk : Sdk) (w w0 : World) :
  load_robot_cert env glob (sdk, w) =
    (fst (load_robot_cert env glob (sdk, w0)),
     (fst (snd (load_robot_cert env glob (sdk, w0))), w)).
Proof.
  destruct glob as [pattern|]; [|reflexivity].
  destruct (cert_paths env pattern) as [|p paths] eqn:Hpaths.
  - rewrite !load_robot_cert_no_match by exact Hpaths. reflexivity.
  - rewrite !load_robot_cert_match by (rewrite Hpaths; discriminate).
    apply read_certs_any_world.
Qed.

(** The loop over the clients changes the two tables only, and raises
    nothing but [AttributeError]. *)
Lemma register_all_sdk (clients : list Factory) :
  forall (sdk : Sdk) (w : World) r s',
    register_all clients (sdk, w) = (r, s') ->
    fst s' = set_registry (service_type_by_name (fst s'))
               (service_client_factories_by_type (fst s')) sdk
    /\ snd s' = w
    /\ (forall e, r = Raise e -> exists attr, e = AttributeError attr).
Proof.
  induction clients as [|f clients IH]; intros sdk w r s' Hrun.
  - injection Hrun as <- <-. simpl. split; [destruct sdk; reflexivity|].
    split; [reflexivity | discriminate].
  - rewrite register_all_cons in Hrun.
    destruct (default_service_name f) as [n|].
    + destruct (service_type f) as [t|].
      * apply IH in Hrun as (Hsdk & Hw & He).
        split; [rewrite Hsdk at 1; reflexivity|]. split; assumption.
      * injection Hrun as <- <-. simpl. split; [destruct sdk; reflexivity|].
        split; [reflexivity|]. intros e [= <-]. eexists. reflexivity.
    + injection Hrun as <- <-. simpl. split; [destruct sdk; reflexivity|].
      split; [reflexivity|]. intros e [= <-]. eexists. reflexivity.
Qed.

(** The loop raises when one of its clients lacks an attribute. *)
Lemma register_all_missing_attribute (clients : list Factory) (f : Factory)
    (sdk : Sdk) (w : World) :
  f ∈ clients ->
  default_service_name f = None \/ service_type f = None ->
  exists attr s', register_all clients (sdk, w) = (Raise (AttributeError attr), s').
Proof.
  intros Hin Hbad.
  destruct (register_all clients (sdk, w)) as [[[]|e] s'] eqn:Hrun.
  - destruct s' as [sdk' w'].
    destruct (register_all_registered _ _ _ _ _ Hrun) as [_ Hall].
    destruct (Hall f Hin) as (n & t & Hn & Ht & _).
    destruct Hbad as [Hbad | Hbad]; congruence.
  - destruct (register_all_sdk _ _ _ _ _ Hrun) as (_ & _ & He).
    destruct (He e eq_refl) as [attr ->]. eexists _, _. reflexivity.
Qed.

(** [generate_client_name] returns in every case, and logs in one only. *)
Lemma generate_client_name_run (env : Env) (prefix : string) (w : World) :
  generate_client_name env prefix w =
    (Ok (prefix +:+ host_part env +:+ ":" +:+ process_info env),
     if host_unknown env then add_log (WARNING, CouldNotGetUsername) w else w).
Proof.
  unfold generate_client_name, host_part, host_unknown, process_info. run_py.
  destruct (platform_node env) as [|c node]; [|reflexivity].
  destruct (getpass_getuser env); reflexivity.
Qed.

(** X15: [generate_client_name] never raises.  The name is the prefix, the
    host, a colon and the process; the host is the machine name, or the user
    name when the machine name is empty, or ["<unknown host>"] when the user
    name cannot be had, and only in this last case a warning is logged. *)
Theorem generate_client_name_cases (env : Env) (prefix : string) (w : World) :
  exists host,
    generate_client_name env prefix w =
      (Ok (prefix +:+ host +:+ ":" +:+ process_info env),
       if host_unknown env then add_log (WARNING, CouldNotGetUsername) w else w)
    /\ (platform_node env <> EmptyString -> host = platform_node env /\ host_unknown env = false)
    /\ (forall user, platform_node env = EmptyString -> getpass_getuser env = Some user ->
        host = user /\ host_unknown env = false)
    /\ (platform_node env = EmptyString -> getpass_getuser env = None ->
        host = "<unknown host>" /\ host_unknown env = true).
Proof.
  exists (host_part env). split; [apply generate_client_name_run|].
  unfold host_part, host_unknown.
  destruct (platform_node env) as [|c node]; destruct (getpass_getuser env) as [u|];
    repeat split; try congruence; try discriminate.
Qed.

Example generate_client_name_anonymous :
  generate_client_name anonymous_env "hello_spot" empty_world
  = (Ok "hello_spot<unknown host>:4242",
     add_log (WARNING, CouldNotGetUsername) empty_world).
Proof. reflexivity. Qed.

Example generate_client_name_workstation :
  generate_client_name boston_env "hello_spot" empty_world
  = (Ok "hello_spotworkstation:hello_spot.py-4242", empty_world).
Proof. reflexivity. Qed.

(** When the loop raises, one of its clients lacks an attribute. *)
Lemma register_all_culprit (clients : list Factory) :
  forall (sdk : Sdk) (w : World) (e : exn) (s' : MethodState),
    register_all clients (sdk, w) = (Raise e, s') ->
    exists f, f ∈ clients /\ (default_service_name f = None \/ service_type f = None).
Proof.
  induction clients as [|f clients IH]; intros sdk w e s' Hreg; [discriminate|].
  rewrite register_all_cons in Hreg.
  destruct (default_service_name f) as [n|] eqn:Hn.
  - destruct (service_type f) as [t|] eqn:Ht.
    + destruct (IH _ _ _ _ Hreg) as (g & Hg & Hbad).
      exists g. split; [right; exact Hg | exact Hbad].
    + exists f. split; [left | right; exact Ht].
  - exists f. split; [left | left; exact Hn].
Qed.

(** [create_standard_sdk] in every outcome: what becomes of the list
    [_DEFAULT_SERVICE_CLIENTS] and of the robot objects, which error comes
    out, and what the [Sdk] is when one is returned. *)
Lemma create_standard_sdk_outcomes (env : Env) (prefix : string)
    (service_clients : option (list Factory)) (glob : pystr) (w : World) :
  let result := create_standard_sdk env prefix service_clients glob w in
  let loaded := load_robot_cert env glob (Sdk_init (Some prefix), w) in
  let clients := _DEFAULT_SERVICE_CLIENTS w ++ added_clients service_clients in
  robot_objects (snd result) = robot_objects w
  /\ match fst loaded with
     | Raise e =>
         fst result = Raise e
         /\ _DEFAULT_SERVICE_CLIENTS (snd result) = _DEFAULT_SERVICE_CLIENTS w
     | Ok _ =>
         _DEFAULT_SERVICE_CLIENTS (snd result) = clients
         /\ match fst result with
            | Raise e =>
                exists attr, e = AttributeError attr
                /\ exists f, f ∈ clients
                             /\ (default_service_name f = None \/ service_type f = None)
            | Ok sdk =>
                app_token sdk = None
                /\ robots sdk = ∅
                /\ cert sdk = cert (fst (snd loaded))
                /\ request_processors sdk
                   = [AddRequestHeader (prefix +:+ host_part env +:+ ":" +:+ process_info env)]
                /\ response_processors sdk = []
                /\ (forall f, f ∈ clients -> registered f sdk)
            end
     end.
Proof.
  cbv zeta. rewrite create_standard_sdk_steps, generate_client_name_run.
  set (w1 := if host_unknown env then _ else _).
  assert (Hdef : _DEFAULT_SERVICE_CLIENTS w1 = _DEFAULT_SERVICE_CLIENTS w)
    by (subst w1; destruct (host_unknown env); reflexivity).
  assert (Hobj : robot_objects w1 = robot_objects w)
    by (subst w1; destruct (host_unknown env); reflexivity).
  rewrite (load_robot_cert_any_world env glob _ w1 w).
  destruct (load_robot_cert env glob (Sdk_init (Some prefix), w))
    as [[[]|e] [sdk2 w2]] eqn:Hload; simpl.
  2: { split; [exact Hobj|]. split; [reflexivity | exact Hdef]. }
  pose proof (load_robot_cert_sdk _ _ _ _ _ _ Hload) as Hsdk2. simpl in Hsdk2.
  set (sdk3 := set_request_processors _ sdk2).
  set (w3 := match service_clients with Some (_ :: _) => _ | _ => w1 end).
  assert (Hw3 : _DEFAULT_SERVICE_CLIENTS w3
                = _DEFAULT_SERVICE_CLIENTS w ++ added_clients service_clients).
  { subst w3. rewrite <- Hdef.
    destruct service_clients as [[|c l]|]; simpl; rewrite ?app_nil_r; reflexivity. }
  assert (Hobj3 : robot_objects w3 = robot_objects w).
  { subst w3. rewrite <- Hobj. destruct service_clients as [[|c l]|]; reflexivity. }
  destruct (register_all (_DEFAULT_SERVICE_CLIENTS w3) (sdk3, w3))
    as [r [sdk4 w4]] eqn:Hreg.
  destruct (register_all_sdk _ _ _ _ _ Hreg) as (Hsdk4 & Hw4 & Hraise).
  simpl in Hsdk4, Hw4. subst w4.
  destruct r as [[]|e]; simpl.
  - split; [exact Hobj3|]. split; [exact Hw3|].
    rewrite Hsdk4. simpl. subst sdk3. rewrite Hsdk2. simpl.
    split; [reflexivity|]. split; [reflexivity|]. split; [reflexivity|].
    split; [reflexivity|]. split; [reflexivity|].
    rewrite <- Hw3. intros f Hf.
    destruct (register_all_registered _ _ _ _ _ Hreg) as [_ Hall].
    rewrite Hsdk4, Hsdk2 in Hall. apply Hall. exact Hf.
  - split; [exact Hobj3|]. split; [exact Hw3|].
    destruct (Hraise e eq_refl) as [attr ->]. exists attr. split; [reflexivity|].
    rewrite <- Hw3. exact (register_all_culprit _ _ _ _ _ Hreg).
Qed.

(** X16: what a call does to [_DEFAULT_SERVICE_CLIENTS].  A call without
    service clients, or with an empty list, leaves it alone.  A call whose
    certificate cannot be loaded raises that error and leaves it alone too,
    also when service clients were passed.  Once the certificate is loaded
    the list is extended by the service clients, also when the registration
    that follows raises.  No call creates a robot object. *)
Theorem create_standard_sdk_default_list (env : Env) (prefix : string)
    (service_clients : option (list Factory)) (glob : pystr) (w : World) :
  let result := create_standard_sdk env prefix service_clients glob w in
  let loaded := load_robot_cert env glob (Sdk_init (Some prefix), w) in
  (added_clients service_clients = [] ->
   _DEFAULT_SERVICE_CLIENTS (snd result) = _DEFAULT_SERVICE_CLIENTS w)
  /\ (forall e, fst loaded = Raise e ->
      fst result = Raise e
      /\ _DEFAULT_SERVICE_CLIENTS (snd result) = _DEFAULT_SERVICE_CLIENTS w)
  /\ (fst loaded = Ok tt ->
      _DEFAULT_SERVICE_CLIENTS (snd result)
        = _DEFAULT_SERVICE_CLIENTS w ++ added_clients service_clients)
  /\ robot_objects (snd result) = robot_objects w.
Proof.
  cbv zeta.
  destruct (create_standard_sdk_outcomes env prefix service_clients glob w) as [Hobj Hcases].
  cbv zeta in Hcases.
  destruct (fst (load_robot_cert env glob (Sdk_init (Some prefix), w))) as [[]|e0].
  - destruct Hcases as [Hdef _]. split; [|split; [|split]].
    + intros Hnone. rewrite Hdef, Hnone, app_nil_r. reflexivity.
    + discriminate.
    + intros _. exact Hdef.
    + exact Hobj.
  - destruct Hcases as [Hraise Hdef]. split; [|split; [|split]].
    + intros _. exact Hdef.
    + intros e [= <-]. split; assumption.
    + discriminate.
    + exact Hobj.
Qed.

(** X17: the [Sdk] that [create_standard_sdk] returns has no app token and
    no robot, one request processor (the header with the client name) and
    no response processor, and every default client registered; with no
    glob its certificate is the packaged one.  [create_robot] on it raises
    [UnsetAppTokenError] until a token is loaded. *)
Theorem create_standard_sdk_has_no_token (env : Env) (prefix : string)
    (service_clients : option (list Factory)) (glob : pystr) (w w' : World) (sdk : Sdk) :
  create_standard_sdk env prefix service_clients glob w = (Ok sdk, w') ->
  app_token sdk = None
  /\ robots sdk = ∅
  /\ request_processors sdk
     = [AddRequestHeader (prefix +:+ host_part env +:+ ":" +:+ process_info env)]
  /\ response_processors sdk = []
  /\ (glob = None -> cert sdk = Some (resource_robot_pem env))
  /\ (forall f, f ∈ _DEFAULT_SERVICE_CLIENTS w -> registered f sdk)
  /\ (forall address name w2,
      create_robot address name (sdk, w2) = (Raise UnsetAppTokenError, (sdk, w2))).
Proof.
  intros Hrun.
  destruct (create_standard_sdk_outcomes env prefix service_clients glob w) as [_ Hcases].
  cbv zeta in Hcases. rewrite Hrun in Hcases. simpl in Hcases.
  destruct (load_robot_cert env glob (Sdk_init (Some prefix), w))
    as [[[]|e] [sdk2 w2]] eqn:Hload; simpl in Hcases;
    [|destruct Hcases as [Hcases _]; discriminate].
  destruct Hcases as (_ & Htok & Hrob & Hcert & Hreq & Hresp & Hreg).
  split; [exact Htok|]. split; [exact Hrob|]. split; [exact Hreq|]. split; [exact Hresp|].
  split; [|split].
  - intros ->. rewrite load_robot_cert_default in Hload.
    injection Hload as <- _. exact Hcert.
  - intros f Hf. apply Hreg. apply elem_of_app. left. exact Hf.
  - intros address name w0. rewrite create_robot_run, Htok. reflexivity.
Qed.

Lemma create_standard_sdk_has_no_token_witness :
  let result := create_standard_sdk boston_env "hello_spot" None None world_with_defaults in
  let sdk := returned_sdk result in
  result = (Ok sdk, snd result)
  /\ app_token sdk = None
  /\ robots sdk = ∅
  /\ request_processors sdk
     = [AddRequestHeader ("hello_spot" +:+ host_part boston_env +:+ ":"
                            +:+ process_info boston_env)]
  /\ response_processors sdk = []
  /\ ((None : pystr) = None -> cert sdk = Some (resource_robot_pem boston_env))
  /\ (forall f, f ∈ _DEFAULT_SERVICE_CLIENTS world_with_defaults -> registered f sdk)
  /\ (forall address name w2,
      create_robot address name (sdk, w2) = (Raise UnsetAppTokenError, (sdk, w2))).
Proof.
  cbv zeta.
  assert (Hrun :
    create_standard_sdk boston_env "hello_spot" None None world_with_defaults
    = (Ok (returned_sdk (create_standard_sdk boston_env "hello_spot" None None
                           world_with_defaults)),
       snd (create_standard_sdk boston_env "hello_spot" None None world_with_defaults)))
    by (vm_compute; reflexivity).
  split; [exact Hrun|].
  exact (create_standard_sdk_has_no_token boston_env "hello_spot" None None
           world_with_defaults _ _ Hrun).
Defined.

(** A call never returns when one of the clients it has to register lacks an
    attribute. *)
Lemma create_standard_sdk_never_returns (env : Env) (prefix : string)
    (service_clients : option (list Factory)) (glob : pystr) (w : World) (f : Factory) :
  f ∈ _DEFAULT_SERVICE_CLIENTS w ++ added_clients service_clients ->
  default_service_name f = None \/ service_type f = None ->
  forall sdk w', create_standard_sdk env prefix service_clients glob w <> (Ok sdk, w').
Proof.
  intros Hin Hbad sdk w' Hrun.
  destruct (create_standard_sdk_outcomes env prefix service_clients glob w) as [_ Hcases].
  cbv zeta in Hcases. rewrite Hrun in Hcases. simpl in Hcases.
  destruct (fst (load_robot_cert env glob (Sdk_init (Some prefix), w))) as [[]|e].
  - destruct Hcases as (_ & _ & _ & _ & _ & _ & Hreg).
    destruct (Hreg f Hin) as (n & t & Hn & Ht & _).
    destruct Hbad as [Hbad | Hbad]; congruence.
  - destruct Hcases as [Hcases _]. discriminate.
Qed.

(** X18: one service client without the attributes spoils the module.  When
    a call is passed a client that lacks [default_service_name] or
    [service_type] and the certificate loads, the call raises
    [AttributeError], but the client has been added to
    [_DEFAULT_SERVICE_CLIENTS] all the same, and from then on no call of
    [create_standard_sdk] returns, whatever its arguments. *)
Theorem create_standard_sdk_spoiled (env : Env) (prefix : string) (c : Factory)
    (l : list Factory) (glob : pystr) (w : World) (f : Factory) :
  f ∈ c :: l ->
  default_service_name f = None \/ service_type f = None ->
  fst (load_robot_cert env glob (Sdk_init (Some prefix), w)) = Ok tt ->
  let result := create_standard_sdk env prefix (Some (c :: l)) glob w in
  (exists attr, fst result = Raise (AttributeError attr))
  /\ f ∈ _DEFAULT_SERVICE_CLIENTS (snd result)
  /\ forall prefix' service_clients' glob' sdk2 w2,
      create_standard_sdk env prefix' service_clients' glob' (snd result) <> (Ok sdk2, w2).
Proof.
  intros Hin Hbad Hload. cbv zeta.
  destruct (create_standard_sdk_outcomes env prefix (Some (c :: l)) glob w) as [_ Hcases].
  cbv zeta in Hcases. rewrite Hload in Hcases. destruct Hcases as [Hdef Hres].
  assert (Hf : f ∈ _DEFAULT_SERVICE_CLIENTS
                 (snd (create_standard_sdk env prefix (Some (c :: l)) glob w))).
  { rewrite Hdef. apply elem_of_app. right. exact Hin. }
  split; [|split; [exact Hf|]].
  - destruct (create_standard_sdk env prefix (Some (c :: l)) glob w) as [[sdk|e] w1] eqn:Hrun.
    + exfalso.
      apply (create_standard_sdk_never_returns env prefix (Some (c :: l)) glob w f)
        with (sdk := sdk) (w' := w1); [|exact Hbad | exact Hrun].
      apply elem_of_app. right. exact Hin.
    + simpl in Hres. destruct Hres as (attr & -> & _). exists attr. reflexivity.
  - intros prefix' service_clients' glob' sdk2 w2.
    apply (create_standard_sdk_never_returns env prefix' service_clients' glob' _ f);
      [|exact Hbad].
    apply elem_of_app. left. exact Hf.
Qed.

Lemma create_standard_sdk_spoiled_witness :
  let result := create_standard_sdk boston_env "hello_spot" (Some [plain_function]) None
                  world_with_defaults in
  plain_function ∈ [plain_function]
  /\ (default_service_name plain_function = None \/ service_type plain_function = None)
  /\ fst (load_robot_cert boston_env None (Sdk_init (Some "hello_spot"), world_with_defaults))
     = Ok tt
  /\ (exists attr, fst result = Raise (AttributeError attr))
  /\ plain_function ∈ _DEFAULT_SERVICE_CLIENTS (snd result)
  /\ forall prefix' service_clients' glob' sdk2 w2,
      create_standard_sdk boston_env prefix' service_clients' glob' (snd result)
        <> (Ok sdk2, w2).
Proof.
  cbv zeta.
  assert (Hin : plain_function ∈ [plain_function]) by left.
  assert (Hbad : default_service_name plain_function = None
                 \/ service_type plain_function = None) by (left; reflexivity).
  split; [exact Hin|]. split; [exact Hbad|]. split; [reflexivity|].
  exact (create_standard_sdk_spoiled boston_env "hello_spot" plain_function [] None
           world_with_defaults plain_function Hin Hbad eq_refl).
Defined.

(** ** Time to expiration *)



(** The day of the era, the month and the day of the month that
    [civil_from_days] computes are in their ranges. *)
Lemma day_of_era_bounds (doe : Z) :
  0 <= doe <= 146096 ->
  let yoe := (doe - doe / 1460 + doe / 36524 - doe / 146096) / 365 in
  let doy := doe - (365 * yoe + yoe / 4 - yoe / 100) in
  let mp := (5 * doy + 2) / 153 in
  let d := doy - (153 * mp + 2) / 5 + 1 in
  0 <= yoe <= 399 /\ 0 <= doy <= 365 /\ 0 <= mp <= 11 /\ 1 <= d <= 31.
Proof.
  intros Hdoe. cbv zeta. Z.to_euclidean_division_equations. lia.
Qed.

Lemma civil_from_days_month_day (z : Z) :
  1 <= month (civil_from_days z) <= 12 /\ 1 <= day (civil_from_days z) <= 31.
Proof.
  unfold civil_from_days.
  set (z' := z + 719468). set (era := z' / 146097). set (doe := z' - era * 146097).
  assert (Hdoe : 0 <= doe <= 146096).
  { subst doe era. pose proof (Z.mod_pos_bound z' 146097 eq_refl) as Hmod.
    rewrite Z.mod_eq in Hmod by discriminate. lia. }
  destruct (day_of_era_bounds doe Hdoe) as (_ & _ & Hmp & Hd). cbv zeta in Hmp, Hd.
  cbv zeta. simpl. split; [|exact Hd].
  match goal with |- context [if ?b then _ else _] => destruct b eqn:Hlt end.
  - apply Z.ltb_lt in Hlt. lia.
  - apply Z.ltb_ge in Hlt. lia.
Qed.

Lemma strftime_date_seconds (local : Z) :
  strftime_date (local * us_per_second) = civil_from_days (local / seconds_per_day).
Proof.
  unfold strftime_date, us_per_day. f_equal.
  rewrite (Z.mul_comm seconds_per_day us_per_second), (Z.mul_comm local us_per_second).
  apply Z.div_mul_cancel_l; discriminate.
Qed.

Lemma fromtimestamp_valid_date (env : Env) (t dt : Z) :
  fromtimestamp env (Int t) = Ok dt -> valid_date (strftime_date dt).
Proof.
  unfold fromtimestamp.
  destruct ((t <? - 2 ^ 63) || (2 ^ 63 <=? t)); [discriminate|].
  destruct ((MINYEAR <=? _) && (_ <=? MAXYEAR)) eqn:Hyear; [|discriminate].
  intros [= <-]. rewrite strftime_date_seconds.
  apply andb_prop in Hyear as [Hmin Hmax].
  apply Z.leb_le in Hmin. apply Z.leb_le in Hmax.
  split; [split; assumption | apply civil_from_days_month_day].
Qed.



(** X21: the list [_DEFAULT_SERVICE_CLIENTS] grows with every call that is
    passed service clients: after two calls that return it holds the
    clients of the first call and then those of the second, also when they
    are the same clients again, and the [Sdk] of the second call has all of
    them registered. *)
Theorem create_standard_sdk_twice (env : Env) (prefix1 prefix2 : string)
    (clients1 clients2 : option (list Factory)) (glob1 glob2 : pystr)
    (w w1 w2 : World) (sdk1 sdk2 : Sdk) :
  create_standard_sdk env prefix1 clients1 glob1 w = (Ok sdk1, w1) ->
  create_standard_sdk env prefix2 clients2 glob2 w1 = (Ok sdk2, w2) ->
  _DEFAULT_SERVICE_CLIENTS w2
    = _DEFAULT_SERVICE_CLIENTS w ++ added_clients clients1 ++ added_clients clients2
  /\ forall f,
      f ∈ _DEFAULT_SERVICE_CLIENTS w ++ added_clients clients1 ++ added_clients clients2 ->
      registered f sdk2.
Proof.
  intros Hfirst Hsecond.
  apply create_standard_sdk_returns in Hfirst as [Hdef1 _].
  apply create_standard_sdk_returns in Hsecond as [Hdef2 (base & _ & _ & Hreg)].
  rewrite Hdef1, <- app_assoc in Hdef2, Hreg. split; [exact Hdef2|].
  intros f Hf. exact (proj2 (register_all_registered _ _ _ _ _ Hreg) f Hf).
Qed.

Lemma create_standard_sdk_twice_witness :
  let first := create_standard_sdk boston_env "hello_spot" (Some [extra_client]) None
                 world_with_defaults in
  let second := create_standard_sdk boston_env "hello_spot" (Some [extra_client]) None
                  (snd first) in
  first = (Ok (returned_sdk first), snd first)
  /\ second = (Ok (returned_sdk second), snd second)
  /\ _DEFAULT_SERVICE_CLIENTS (snd second)
     = _DEFAULT_SERVICE_CLIENTS world_with_defaults
         ++ added_clients (Some [extra_client]) ++ added_clients (Some [extra_client])
  /\ forall f,
      f ∈ _DEFAULT_SERVICE_CLIENTS world_with_defaults
            ++ added_clients (Some [extra_client]) ++ added_clients (Some [extra_client]) ->
      registered f (returned_sdk second).
Proof.
  cbv zeta.
  assert (Hfirst :
    create_standard_sdk boston_env "hello_spot" (Some [extra_client]) None world_with_defaults
    = (Ok (returned_sdk (create_standard_sdk boston_env "hello_spot" (Some [extra_client])
                           None world_with_defaults)),
       snd (create_standard_sdk boston_env "hello_spot" (Some [extra_client]) None
              world_with_defaults))) by (vm_compute; reflexivity).
  set (first := create_standard_sdk boston_env "hello_spot" (Some [extra_client]) None
                  world_with_defaults) in *.
  assert (Hsecond :
    create_standard_sdk boston_env "hello_spot" (Some [extra_client]) None (snd first)
    = (Ok (returned_sdk (create_standard_sdk boston_env "hello_spot" (Some [extra_client])
                           None (snd first))),
       snd (create_standard_sdk boston_env "hello_spot" (Some [extra_client]) None
              (snd first)))) by (vm_compute; reflexivity).
  split; [exact Hfirst|]. split; [exact Hsecond|].
  exact (create_standard_sdk_twice boston_env "hello_spot" "hello_spot"
           (Some [extra_client]) (Some [extra_client]) None None
           world_with_defaults _ _ _ _ Hfirst Hsecond).
Defined.
